(** * DACTE OS: extraction and rendering of a CT-e OS document

    Shallow embedding of [brazilfiscalreport/dacte/dacteos.py]:
    the [find_text] helper, the [DacteOS.__init__] extraction pass and the
    drawing phases it runs, in an exception monad.

    - An XML element ([xml.etree.ElementTree.Element]) is a tag, an
      attribute list, an optional text and a list of children.  The input of
      the constructor is the root produced by [ET.fromstring] (parsing is a
      black box).
    - Python strings are [string] (bytes); [str.strip] strips the ASCII
      whitespace characters.
    - The page produced by the renderer is the list of text draw calls;
      fixed captions and all geometry (rectangles, lines, coordinates) are
      left out, since they do not depend on the document.
    - The formatting helpers of [brazilfiscalreport.utils], the code tables of
      [dacte_conf] and the QR-code renderer are not part of the sources
      read here; they are the fields of a record [utils] that every theorem
      quantifies over, and each may raise. *)

From Stdlib Require Import String Ascii List ZArith Bool Lia QArith Lqa.
Import ListNotations.

Set Warnings "-register-all".

Open Scope string_scope.
Open Scope list_scope.

Infix "+++" := String.append (at level 60, right associativity).

(** ** Exceptions and the exception monad *)

(** [NotModelled] stands for ElementPath syntax outside the fragment
    modelled here ([..], predicates in brackets, wildcard tags other than the
    [{*}name], [{ns}*] and [{*}*] child steps); none of the program's paths
    uses it. *)
Inductive exn :=
| AttributeError
| ValueError
| SyntaxError
| KeyError
| TypeError
| HelperError
| NotModelled.

Inductive result (A : Type) :=
| Ok (a : A)
| Err (e : exn).
Arguments Ok {A} a.
Arguments Err {A} e.

Definition bind {A B} (m : result A) (k : A -> result B) : result B :=
  match m with
  | Ok a => k a
  | Err e => Err e
  end.

Notation "x <- m ;; k" := (bind m (fun x => k))
  (at level 61, m at next level, right associativity).

Definition is_err {A} (r : result A) : bool :=
  match r with Ok _ => false | Err _ => true end.

(** Attribute access on a value that may be [None]: [None.find(...)] raises
    [AttributeError]. *)
Definition on {A} (o : option A) : result A :=
  match o with Some a => Ok a | None => Err AttributeError end.

(** [mapM] of the monad, used for Python loops that build a list. *)
Fixpoint mapM {A B} (f : A -> result B) (l : list A) : result (list B) :=
  match l with
  | [] => Ok []
  | x :: xs => y <- f x ;; ys <- mapM f xs ;; Ok (y :: ys)
  end.

(** ** XML elements *)

Inductive element :=
| Element (tag : string) (attrib : list (string * string))
          (text : option string) (children : list element).

Definition el_tag (e : element) : string :=
  match e with Element t _ _ _ => t end.
Definition el_attrib (e : element) : list (string * string) :=
  match e with Element _ a _ _ => a end.
Definition el_text (e : element) : option string :=
  match e with Element _ _ t _ => t end.
Definition el_children (e : element) : list element :=
  match e with Element _ _ _ c => c end.

(** [Element.iter()]: the element and its descendants, in document order
    (preorder). *)
Fixpoint iter (e : element) : list element :=
  match e with
  | Element _ _ _ cs =>
      e :: (fix iter_list (l : list element) : list element :=
              match l with
              | [] => []
              | c :: l' => iter c ++ iter_list l'
              end) cs
  end.

(** The descendants of an element, in document order: [iter()] without the
    element itself. *)
Definition descendants (e : element) : list element := tl (iter e).

(** Truth value of an element in Python: it has at least one child. *)
Definition el_bool (e : element) : bool :=
  match el_children e with [] => false | _ => true end.

(** [dict.get(key, default)] on an attribute list. *)
Fixpoint assoc_get (k : string) (l : list (string * string)) : option string :=
  match l with
  | [] => None
  | (k', v) :: l' => if String.eqb k k' then Some v else assoc_get k l'
  end.

(** ** String operations of Python *)

(** Characters for which [str.isspace] holds, within ASCII. *)
Definition is_space (c : ascii) : bool :=
  let n := nat_of_ascii c in
  (Nat.leb 9 n && Nat.leb n 13) || (Nat.leb 28 n && Nat.leb n 32).

Fixpoint lstrip (s : string) : string :=
  match s with
  | EmptyString => EmptyString
  | String c s' => if is_space c then lstrip s' else s
  end.

Fixpoint rstrip (s : string) : string :=
  match s with
  | EmptyString => EmptyString
  | String c s' =>
      match rstrip s' with
      | EmptyString => if is_space c then EmptyString else String c EmptyString
      | r => String c r
      end
  end.

(** [str.strip()]. *)
Definition strip (s : string) : string := rstrip (lstrip s).

(** [str.upper()] on ASCII letters. *)
Fixpoint upper (s : string) : string :=
  match s with
  | EmptyString => EmptyString
  | String c s' =>
      let n := nat_of_ascii c in
      let c' := if Nat.leb 97 n && Nat.leb n 122 then ascii_of_nat (n - 32) else c in
      String c' (upper s')
  end.

Fixpoint starts_with (p s : string) : bool :=
  match p, s with
  | EmptyString, _ => true
  | String a p', String b s' => Ascii.eqb a b && starts_with p' s'
  | _, _ => false
  end.

(** [s.replace(old, new)] for a non-empty [old]: every non-overlapping
    occurrence, scanning left to right; [fuel] is the length of [s]. *)
Fixpoint replace_aux (fuel : nat) (old new s : string) : string :=
  match fuel with
  | O => s
  | S fuel' =>
      match s with
      | EmptyString => EmptyString
      | String c s' =>
          if starts_with old s
          then new +++ replace_aux fuel' old new
                         (substring (String.length old) (String.length s) s)
          else String c (replace_aux fuel' old new s')
      end
  end.

Definition py_replace (s old new : string) : string :=
  replace_aux (String.length s) old new s.

(** [s[i:j]] for [0 <= i <= j]; Python clamps the bounds to the length. *)
Definition py_slice (s : string) (i j : nat) : string :=
  substring i (j - i) s.

Fixpoint contains_char (c : ascii) (s : string) : bool :=
  match s with
  | EmptyString => false
  | String d s' => Ascii.eqb c d || contains_char c s'
  end.

(** [s.split(c)[-1]]: the part after the last occurrence of [c]. *)
Fixpoint last_segment (c : ascii) (s : string) : string :=
  match s with
  | EmptyString => EmptyString
  | String d s' =>
      if contains_char c s' then last_segment c s'
      else if Ascii.eqb c d then s' else s
  end.

(** [s.split(c, 1)] when [c] occurs in [s]. *)
Fixpoint split_first (c : ascii) (s : string) : string * string :=
  match s with
  | EmptyString => (EmptyString, EmptyString)
  | String d s' =>
      if Ascii.eqb c d then (EmptyString, s')
      else let (a, b) := split_first c s' in (String d a, b)
  end.

(** ** ElementPath: [Element.find] and [Element.findall]

    Python 3.10's [xml.etree.ElementPath] on the fragment the program uses:
    the tokenizer [xpath_tokenizer_re], the namespace handling of
    [xpath_tokenizer], and the steps [prepare_child], [prepare_star],
    [prepare_self] and [prepare_descendant] compiled by [iterfind]. *)

(** The null character that ends a C string. *)
Definition NUL : ascii := Ascii.zero.

Fixpoint ends_with (suf s : string) : bool :=
  String.eqb s suf || match s with EmptyString => false | String _ s' => ends_with suf s' end.

(** A token of [xpath_tokenizer_re]: an operator and a tag, one of them
    empty (both empty for a run of white space). *)
Inductive token := Tok (op tag : string).

(** The one-character operators [[/.*:\[\]\(\)@=]]. *)
Definition is_op1 (c : ascii) : bool := contains_char c "/.*:[]()@=".

(** The tag characters [[^/\[\]\(\)@!=\s]]. *)
Definition is_tag_char (c : ascii) : bool :=
  negb (contains_char c "/[]()@!=") && negb (is_space c).

Definition next_is (d : ascii) (r : string) : bool :=
  match r with String c _ => Ascii.eqb c d | EmptyString => false end.

Definition tail (r : string) : string :=
  match r with String _ r' => r' | EmptyString => EmptyString end.

(** The text up to the first [d], and what follows that [d]. *)
Fixpoint upto (d : ascii) (s : string) : option (string * string) :=
  match s with
  | EmptyString => None
  | String c r =>
      if Ascii.eqb c d then Some (EmptyString, r)
      else match upto d r with
           | Some (a, b) => Some (String c a, b)
           | None => None
           end
  end.

Definition DQUOTE : ascii := ascii_of_nat 34.

Definition is_quote (c : ascii) : bool := Ascii.eqb c "'" || Ascii.eqb c DQUOTE.

(** The operator alternative of [xpath_tokenizer_re] at a character [c]
    followed by [r]: a string in single or double quotes, or
    [::|//?|\.\.|\(\)|!=|[/.*:\[\]\(\)@=]]. *)
Definition op_match (c : ascii) (r : string) : option (string * string) :=
  match (if is_quote c then upto c r else None) with
  | Some (body, rest) => Some (String c (body +++ String c EmptyString), rest)
  | None =>
  if Ascii.eqb c ":" && next_is ":" r then Some ("::", tail r)
  else if Ascii.eqb c "/" then
    (if next_is "/" r then Some ("//", tail r) else Some ("/", r))
  else if Ascii.eqb c "." && next_is "." r then Some ("..", tail r)
  else if Ascii.eqb c "(" && next_is ")" r then Some ("()", tail r)
  else if Ascii.eqb c "!" && next_is "=" r then Some ("!=", tail r)
  else if is_op1 c then Some (String c EmptyString, r)
  else None
  end.

(** The longest run of tag characters. *)
Fixpoint span_tag (s : string) : string * string :=
  match s with
  | String c r =>
      if is_tag_char c then let (a, b) := span_tag r in (String c a, b)
      else (EmptyString, s)
  | EmptyString => (EmptyString, EmptyString)
  end.

(** The tag alternative [(?:\{[^}]+\})?[^/\[\]\(\)@!=\s]+] at a tag
    character [c]: the braced group when it is non-empty and followed by a
    tag character, the run of tag characters otherwise. *)
Definition tag_match (c : ascii) (r : string) : string * string :=
  let plain := span_tag (String c r) in
  if Ascii.eqb c "{" then
    match upto "}" r with
    | Some (body, rest) =>
        if String.eqb body "" then plain
        else let (t, rest') := span_tag rest in
             if String.eqb t "" then plain else ("{" +++ body +++ "}" +++ t, rest')
    | None => plain
    end
  else plain.

(** [xpath_tokenizer_re.findall(pattern)]; a character that starts none of
    the alternatives (a lone [!]) is skipped.  [fuel] is the length. *)
Fixpoint tokenize (fuel : nat) (s : string) : list token :=
  match fuel with
  | O => []
  | S f =>
      match s with
      | EmptyString => []
      | String c r =>
          match op_match c r with
          | Some (op, rest) => Tok op "" :: tokenize f rest
          | None =>
              if is_tag_char c then
                let (t, rest) := tag_match c r in Tok "" t :: tokenize f rest
              else if is_space c then Tok "" "" :: tokenize f (lstrip r)
              else tokenize f r
          end
      end
  end.

(** The tokens as the generator [xpath_tokenizer(pattern, namespaces)]
    yields them, up to the exception it raises, if any. *)
Inductive tstream :=
| TNil
| TErr (e : exn)
| TCons (t : token) (s : tstream).

(** [xpath_tokenizer]: a [prefix:name] tag through the namespace map
    ([SyntaxError] when the map is empty or lacks the prefix), a bare tag
    under the default namespace [''] unless it names an attribute. *)
Fixpoint ns_tokens (ns : list (string * string)) (parsing_attribute : bool)
    (l : list token) : tstream :=
  match l with
  | [] => TNil
  | Tok ttype tag :: l' =>
      if negb (String.eqb tag "") && negb (starts_with "{" tag) then
        if contains_char ":" tag then
          let (prefix, uri) := split_first ":" tag in
          match ns with
          | [] => TErr SyntaxError
          | _ =>
              match assoc_get prefix ns with
              | Some u => TCons (Tok ttype ("{" +++ u +++ "}" +++ uri)) (ns_tokens ns false l')
              | None => TErr SyntaxError
              end
          end
        else
          match assoc_get "" ns with
          | Some d =>
              if negb (String.eqb d "") && negb parsing_attribute
              then TCons (Tok ttype ("{" +++ d +++ "}" +++ tag)) (ns_tokens ns false l')
              else TCons (Tok ttype tag) (ns_tokens ns false l')
          | None => TCons (Tok ttype tag) (ns_tokens ns false l')
          end
      else TCons (Tok ttype tag) (ns_tokens ns (String.eqb ttype "@") l')
  end.

(** A selector of [iterfind]. *)
Inductive step :=
| SChild (tag : string)
| SChildWild (tag : string)
| SStar
| SSelf
| SDesc (tag : string)
| SDescAll.

(** [_is_wildcard_tag]. *)
Definition is_wildcard_tag (tag : string) : bool :=
  starts_with "{*}" tag || ends_with "}*" tag.

(** [tag[2:]] when [tag[:2] == '{}'] (a tag in no namespace). *)
Definition strip_empty_ns (tag : string) : string :=
  if starts_with "{}" tag then substring 2 (String.length tag - 2) tag else tag.

(** The selection of [_prepare_tag]: [{*}*] any tag, [{*}name] the
    name in any or no namespace, [{ns}*] any tag of the namespace. *)
Definition wildcard_match (tag el_tag : string) : bool :=
  if String.eqb tag "{*}*" then true
  else if starts_with "{*}" tag then
    String.eqb el_tag (substring 3 (String.length tag - 3) tag)
    || ends_with (substring 2 (String.length tag - 2) tag) el_tag
  else starts_with (substring 0 (String.length tag - 1) tag) el_tag.

(** [prepare_child]. *)
Definition prepare_child (tag : string) : result step :=
  if is_wildcard_tag tag then
    if String.eqb tag "{}*" then Err NotModelled else Ok (SChildWild tag)
  else Ok (SChild (strip_empty_ns tag)).

(** [ops[token[0]](next, token)]: the selector of a step and the tokens
    after it.  [prepare_descendant] reads the next token: [next()] at the
    end of the path gives [None], whose subscript raises [TypeError]. *)
Definition prepare (t : token) (rest : tstream) : result (step * tstream) :=
  let '(Tok op tag) := t in
  if String.eqb op "" then s <- prepare_child tag ;; Ok (s, rest)
  else if String.eqb op "*" then Ok (SStar, rest)
  else if String.eqb op "." then Ok (SSelf, rest)
  else if String.eqb op "//" then
    match rest with
    | TNil => Err TypeError
    | TErr e => Err e
    | TCons (Tok op2 tag2) rest2 =>
        if String.eqb op2 "*" then Ok (SDescAll, rest2)
        else if String.eqb op2 "" then
          if is_wildcard_tag tag2 then Err NotModelled
          else Ok (SDesc (strip_empty_ns tag2), rest2)
        else Err SyntaxError
    end
  else if String.eqb op ".." || String.eqb op "[" then Err NotModelled
  else Err KeyError.

(** The compilation loop of [iterfind]: a step, then one [/] token between
    two steps. *)
Fixpoint compile (fuel : nat) (t : token) (rest : tstream) : result (list step) :=
  match fuel with
  | O => Err NotModelled
  | S f =>
      p <- prepare t rest ;;
      let '(st, rest') := p in
      match rest' with
      | TNil => Ok [st]
      | TErr e => Err e
      | TCons t' r =>
          let '(Tok op' _) := t' in
          if String.eqb op' "/" then
            match r with
            | TNil => Ok [st]
            | TErr e => Err e
            | TCons t'' r' => sts <- compile f t'' r' ;; Ok (st :: sts)
            end
          else sts <- compile f t' r ;; Ok (st :: sts)
      end
  end.

(** The selectors [iterfind] compiles for a path: a trailing [/] gets a
    [*]; a leading [/] raises [SyntaxError]; an empty token stream makes
    [iterfind] return [None], on which [find] and [findall] raise
    [TypeError]. *)
Definition path_steps (ns : list (string * string)) (path : string) : result (list step) :=
  let path := if ends_with "/" path then path +++ "*" else path in
  if starts_with "/" path then Err SyntaxError
  else
    match ns_tokens ns false (tokenize (String.length path) path) with
    | TNil => Err TypeError
    | TErr e => Err e
    | TCons t r => compile (String.length path) t r
    end.

Definition select (st : step) (l : list element) : list element :=
  match st with
  | SChild tag => flat_map (fun e => filter (fun c => String.eqb (el_tag c) tag) (el_children e)) l
  | SChildWild tag =>
      flat_map (fun e => filter (fun c => wildcard_match tag (el_tag c)) (el_children e)) l
  | SStar => flat_map el_children l
  | SSelf => l
  | SDesc tag => flat_map (fun e => filter (fun c => String.eqb (el_tag c) tag) (descendants e)) l
  | SDescAll => flat_map descendants l
  end.

Definition run (steps : list step) (l : list element) : list element :=
  fold_left (fun acc st => select st acc) steps l.

(** [ElementPath.iterfind(elem, path, namespaces)], as a list. *)
Definition iterfind (e : element) (path : string) (ns : list (string * string))
  : result (list element) :=
  steps <- path_steps ns path ;; Ok (run steps [e]).

(** [checkpath] of [_elementtree.c]: a wildcard prefix [{}] or [{*}] of a
    path of three characters or more, or a path character [/*[@.] outside
    braces. *)
Fixpoint checkpath_aux (check : bool) (s : string) : bool :=
  match s with
  | EmptyString => false
  | String c r =>
      if Ascii.eqb c "{" then checkpath_aux false r
      else if Ascii.eqb c "}" then checkpath_aux true r
      else if check && contains_char c "/*[@." then true
      else checkpath_aux check r
  end.

Definition checkpath (s : string) : bool :=
  (Nat.leb 3 (String.length s) && (starts_with "{}" s || starts_with "{*}" s))
  || checkpath_aux true s.

(** [Element.find(path, namespaces)]: through ElementPath when the path has
    a path character or a namespace map is given, otherwise the first child
    whose tag is the path. *)
Definition find (e : element) (path : string) (namespaces : option (list (string * string)))
  : result (option element) :=
  match namespaces with
  | Some ns => l <- iterfind e path ns ;; Ok (hd_error l)
  | None =>
      if checkpath path then l <- iterfind e path [] ;; Ok (hd_error l)
      else Ok (hd_error (filter (fun c => String.eqb (el_tag c) path) (el_children e)))
  end.

(** [Element.findall(path, namespaces)]. *)
Definition findall (e : element) (path : string) (namespaces : option (list (string * string)))
  : result (list element) :=
  match namespaces with
  | Some ns => iterfind e path ns
  | None =>
      if checkpath path then iterfind e path []
      else Ok (filter (fun c => String.eqb (el_tag c) path) (el_children e))
  end.

(** ** Tag lookups of the program *)

Definition cte_uri : string := "http://www.portalfiscal.inf.br/cte".

(** [URL] of [dacte_conf] (not among the sources): the descendant axis
    followed by the CT-e namespace in Clark notation, so that
    [f"{URL}infCte"] finds the first [infCte] anywhere below the element. *)
Definition URL : string := ".//{http://www.portalfiscal.inf.br/cte}".

(** The tag of a CT-e element as the parser reports it. *)
Definition ns_tag (t : string) : string := "{" +++ cte_uri +++ "}" +++ t.

Definition default_namespace : list (string * string) := [("cte", cte_uri)].

(** Modelled from the spec: [utils.get_tag_text(node, url, tag)], which is
    not among the sources: [node.find(f"{url}{tag}").text], the empty
    string when nothing is found or the text is absent. *)
Definition get_tag_text (node : element) (url tag : string) : result string :=
  found <- find node (url +++ tag) None ;;
  Ok (match found with
      | Some c => match el_text c with Some t => t | None => "" end
      | None => ""
      end).

(** [find_text(element, xpath, namespace=None)]. *)
Definition find_text_ns (element : option element) (xpath : string)
    (namespace : option (list (string * string))) : result string :=
  match element with
  | None => Ok ""
  | Some el =>
      let ns := match namespace with Some n => n | None => default_namespace end in
      found <- find el xpath (Some ns) ;;
      match match found with Some f => el_text f | None => None end with
      | Some t => Ok (strip t)
      | None =>
          let tag_name_without_prefix :=
            if contains_char ":" xpath then last_segment ":" xpath else xpath in
          text_from_tag_helper <- get_tag_text el URL tag_name_without_prefix ;;
          if negb (String.eqb text_from_tag_helper "")
          then Ok (strip text_from_tag_helper)
          else Ok ""
      end
  end.

Definition find_text (element : option element) (xpath : string) : result string :=
  find_text_ns element xpath None.

(** ** Integers: [int(s)] and [f"{n:011,}"] *)

Open Scope Z_scope.

Definition digit_val (c : ascii) : option Z :=
  let n := nat_of_ascii c in
  if Nat.leb 48 n && Nat.leb n 57 then Some (Z.of_nat n - 48) else None.

(** Decimal digits with single underscores between digits, as [int]
    accepts them; [prev] records that the previous character was a digit. *)
Fixpoint parse_digits (s : string) (acc : Z) (prev : bool) : option Z :=
  match s with
  | EmptyString => if prev then Some acc else None
  | String c s' =>
      match digit_val c with
      | Some d => parse_digits s' (acc * 10 + d) true
      | None =>
          if Ascii.eqb c "_" && prev then parse_digits s' acc false else None
      end
  end.

(** [int(s)] for a [str] in base 10: surrounding whitespace, an optional
    sign, then digits; anything else raises [ValueError]. *)
Definition py_int (s : string) : result Z :=
  let t := strip s in
  let r :=
    match t with
    | String c t' =>
        if Ascii.eqb c "-" then option_map Z.opp (parse_digits t' 0 false)
        else if Ascii.eqb c "+" then parse_digits t' 0 false
        else parse_digits t 0 false
    | EmptyString => None
    end in
  match r with Some n => Ok n | None => Err ValueError end.

Definition digit_char (d : Z) : ascii := ascii_of_nat (Z.to_nat d + 48).

(** The [k] low-order decimal digits of [n >= 0], most significant first. *)
Fixpoint digits_fixed (k : nat) (n : Z) : string :=
  match k with
  | O => EmptyString
  | S k' => String (digit_char ((n / 10 ^ Z.of_nat k') mod 10)) (digits_fixed k' n)
  end.

(** Number of decimal digits of [n >= 0], that is [len(str(n))]. *)
Fixpoint ndigits_aux (fuel : nat) (n : Z) : nat :=
  match fuel with
  | O => 1
  | S f => if n <? 10 then 1 else S (ndigits_aux f (n / 10))
  end.

Definition ndigits (n : Z) : nat := ndigits_aux (Z.to_nat n) n.

(** Length of [d] digits once grouped by three. *)
Definition grouped_length (d : nat) : nat := (d + (d - 1) / 3)%nat.

(** Fewest digits whose grouped form fills [w] columns. *)
Fixpoint needed_digits_aux (fuel d w : nat) : nat :=
  match fuel with
  | O => d
  | S f => if Nat.leb w (grouped_length d) then d else needed_digits_aux f (S d) w
  end.

Definition needed_digits (w : nat) : nat := needed_digits_aux w 1 w.

(** Insert [sep] every three digits from the right. *)
Fixpoint group3 (sep : ascii) (s : string) : string :=
  match s with
  | EmptyString => EmptyString
  | String c s' =>
      if negb (String.eqb s' "") && Nat.eqb (Nat.modulo (String.length s') 3) 0
      then String c (String sep (group3 sep s'))
      else String c (group3 sep s')
  end.

(** [format(n, "0<w>,")]: the sign, then the digits zero-padded so that
    the grouped digits fill the rest of the width. *)
Definition format_zero_grouped (w : nat) (n : Z) : string :=
  let sign := if n <? 0 then "-" else "" in
  let m := Z.abs n in
  let d := Nat.max (ndigits m) (needed_digits (w - String.length sign)) in
  sign +++ group3 "," (digits_fixed d m).

(** ** Timestamps: [datetime.fromisoformat] and [strftime] *)

Record datetime := mkDatetime {
  dt_year : Z; dt_month : Z; dt_day : Z;
  dt_hour : Z; dt_minute : Z; dt_second : Z; dt_microsecond : Z }.

Fixpoint parse_fixed (n : nat) (s : string) : option (Z * string) :=
  match n with
  | O => Some (0, s)
  | S n' =>
      match s with
      | String c s' =>
          match digit_val c, parse_fixed n' s' with
          | Some d, Some (v, r) => Some (d * 10 ^ Z.of_nat n' + v, r)
          | _, _ => None
          end
      | EmptyString => None
      end
  end.

Definition expect (c : ascii) (s : string) : option string :=
  match s with
  | String d s' => if Ascii.eqb c d then Some s' else None
  | EmptyString => None
  end.

Definition leap (y : Z) : bool :=
  (Z.eqb (y mod 4) 0 && negb (Z.eqb (y mod 100) 0)) || Z.eqb (y mod 400) 0.

Definition days_in_month (y m : Z) : Z :=
  if Z.eqb m 2 then (if leap y then 29 else 28)
  else if Z.eqb m 4 || Z.eqb m 6 || Z.eqb m 9 || Z.eqb m 11 then 30 else 31.

(** The character at byte [i], the terminating NUL past the end. *)
Definition char_at (s : string) (i : nat) : ascii :=
  match String.get i s with Some c => c | None => NUL end.

(** [parse_isoformat_date]: [YYYY-MM-DD] at the start of the string. *)
Definition parse_isoformat_date (s : string) : option (Z * Z * Z) :=
  match parse_fixed 4 s with
  | None => None
  | Some (y, r0) =>
  match expect "-" r0 with
  | None => None
  | Some r1 =>
  match parse_fixed 2 r1 with
  | None => None
  | Some (mo, r2) =>
  match expect "-" r2 with
  | None => None
  | Some r3 =>
  match parse_fixed 2 r3 with
  | None => None
  | Some (d, _) => Some (y, mo, d)
  end end end end end.

(** The fraction of [parse_hh_mm_ss_ff]: three or six digits up to the end
    of the time text, in microseconds. *)
Definition parse_fraction (a : string) : option Z :=
  let n := String.length a in
  if Nat.eqb n 3 then option_map (fun '(v, _) => v * 1000) (parse_fixed 3 a)
  else if Nat.eqb n 6 then option_map fst (parse_fixed 6 a)
  else None.

(** [parse_hh_mm_ss_ff(tstr, tstr_end, ...)] on the text [a] between the two
    pointers, [term] being the character at [tstr_end] (the sign of a UTC
    offset, or the terminating NUL).  At most [k] more two-digit components;
    after each one the next character is read, and when the text ends there
    the parse stops with [c != '\0'] as the flag, otherwise [:] goes on to the
    next component (the fraction after the third) and [.] to the fraction.
    The flag is the return value [1]: the text did not end at a NUL. *)
Fixpoint hms_loop (k : nat) (a : string) (term : ascii) (vals : list Z)
  : option (bool * list Z * Z) :=
  match k with
  | O => option_map (fun us => (negb (Ascii.eqb term NUL), vals, us)) (parse_fraction a)
  | S k' =>
      match parse_fixed 2 a with
      | None => None
      | Some (v, r) =>
          let vals := vals ++ [v] in
          match r with
          | EmptyString => Some (negb (Ascii.eqb term NUL), vals, 0)
          | String c EmptyString => Some (negb (Ascii.eqb c NUL), vals, 0)
          | String c r' =>
              if Ascii.eqb c ":" then hms_loop k' r' term vals
              else if Ascii.eqb c "." then
                option_map (fun us => (negb (Ascii.eqb term NUL), vals, us)) (parse_fraction r')
              else None
          end
      end
  end.

Definition parse_hh_mm_ss_ff (a : string) (term : ascii) : option (bool * Z * Z * Z * Z) :=
  match hms_loop 3 a term [] with
  | Some (notend, vals, us) => Some (notend, nth 0 vals 0, nth 1 vals 0, nth 2 vals 0, us)
  | None => None
  end.

Definition is_sign (c : ascii) : bool := Ascii.eqb c "+" || Ascii.eqb c "-".

(** The time text up to the first [+] or [-], and the rest. *)
Fixpoint break_sign (t : string) : string * string :=
  match t with
  | EmptyString => (EmptyString, EmptyString)
  | String c r =>
      if is_sign c then (EmptyString, t)
      else let (a, b) := break_sign r in (String c a, b)
  end.

(** [parse_isoformat_time]: the time, then an optional UTC offset of 6, 9
    or 16 characters ([+HH:MM], [+HH:MM:SS], [+HH:MM:SS.ffffff]); the
    offset is [(seconds, microseconds)] with the sign applied. *)
Definition parse_isoformat_time (t : string)
  : option (Z * Z * Z * Z * option (Z * Z)) :=
  let (a, b) := break_sign t in
  let term := match b with String c _ => c | EmptyString => NUL end in
  match parse_hh_mm_ss_ff a term with
  | None => None
  | Some (notend, hh, mi, ss, us) =>
      match b with
      | EmptyString => if notend then None else Some (hh, mi, ss, us, None)
      | String sg b' =>
          let tzlen := String.length b in
          if negb (Nat.eqb tzlen 6 || Nat.eqb tzlen 9 || Nat.eqb tzlen 16) then None
          else
            match parse_hh_mm_ss_ff b' NUL with
            | Some (false, th, tm, ts, tus) =>
                let sign := if Ascii.eqb sg "-" then -1 else 1 in
                Some (hh, mi, ss, us, Some (sign * (th * 3600 + tm * 60 + ts), sign * tus))
            | _ => None
            end
      end
  end.

(** The bytes the separator at index 10 takes in UTF-8, from its first
    byte. *)
Definition utf8_skip (c : ascii) : nat :=
  let n := nat_of_ascii c in
  if Nat.ltb n 128 then 11
  else let hi := (n / 16 * 16)%nat in
       if Nat.eqb hi 224 then 13 else if Nat.eqb hi 240 then 14 else 12.

Definition in_range (lo x hi : Z) : bool := (lo <=? x) && (x <=? hi).

(** [datetime.fromisoformat(s)] of Python 3.10 ([datetime_fromisoformat]
    of [_datetimemodule.c]) on the UTF-8 bytes of [s]: the date, then, when
    there is more, one separator character of any kind and the time; [None]
    stands for the [ValueError] it raises.  A separator whose UTF-8 sequence
    runs past the end (not valid UTF-8) is taken as an error. *)
Definition fromisoformat (s : string) : option datetime :=
  match parse_isoformat_date s with
  | None => None
  | Some (y, mo, d) =>
      let len := String.length s in
      let time :=
        if Nat.leb len 10 then Some (0, 0, 0, 0, None)
        else
          let skip := utf8_skip (char_at s 10) in
          if Nat.ltb len skip then None
          else parse_isoformat_time (substring skip (len - skip) s) in
      match time with
      | None => None
      | Some (hh, mi, ss, us, tz) =>
          let tz_ok :=
            match tz with
            | Some (off, off_us) =>
                let t := off * 1000000 + off_us in
                (-86400000000 <? t) && (t <? 86400000000)
            | None => true
            end in
          if tz_ok && in_range 1 y 9999 && in_range 1 mo 12
             && in_range 1 d (days_in_month y mo)
             && in_range 0 hh 23 && in_range 0 mi 59 && in_range 0 ss 59
             && in_range 0 us 999999
          then Some (mkDatetime y mo d hh mi ss us)
          else None
      end
  end.

(** [strftime("%d/%m/%Y %H:%M:%S")]. *)
Definition strftime_dmy_hms (t : datetime) : string :=
  digits_fixed 2 (dt_day t) +++ "/" +++ digits_fixed 2 (dt_month t) +++ "/"
  +++ digits_fixed (ndigits (dt_year t)) (dt_year t) +++ " "
  +++ digits_fixed 2 (dt_hour t) +++ ":" +++ digits_fixed 2 (dt_minute t)
  +++ ":" +++ digits_fixed 2 (dt_second t).

Close Scope Z_scope.


(** ** Collaborators of the constructor *)

(** The helpers the constructor calls that are not among the sources read
    here: the formatters of [brazilfiscalreport.utils], the code tables of
    [dacte_conf] (each a [dict] read with [.get]), Python's
    [f"{float(s):.2f}"], the QR-code renderer and the clock read by the
    footer.  Each formatter may raise. *)
Record utils := mkUtils {
  format_number : string -> Z -> result string;
  format_cpf_cnpj : string -> result string;
  format_cep : string -> result string;
  format_phone : string -> result string;
  float_2f : string -> result string;
  draw_qr_code : string -> result unit;
  TP_CTE : string -> option string;
  TP_SERVICO : string -> option string;
  TP_TOMADOR : string -> option string;
  TP_ICMS : string -> option string;
  TP_MODAL : string -> option string;
  TP_CODIGO_MEDIDA_REDUZIDO : string -> option string;
  now_str : string }.

(** The part of [DacteConfig] the extraction reads. *)
Record config := mkConfig {
  price_precision : Z;
  quantity_precision : Z }.

Definition dict_get (d : string -> option string) (k default : string) : string :=
  match d k with Some v => v | None => default end.

(** Python truth value of [element.find(...)]: [None] is false, an element
    is true when it has children. *)
Definition py_truthy (o : option element) : bool :=
  match o with Some e => el_bool e | None => false end.

(** ** Lines 82-102: the nodes of the document *)

Record nodes := mkNodes {
  cte_os_node : element;
  prot_cte_node : element;
  inf_cte : element;
  ide : option element;
  emit : option element;
  toma_node : option element;
  v_prest : option element;
  imp : option element;
  inf_cte_norm : element;
  inf_carga : option element;
  inf_doc : option element;
  inf_modal : option element;
  compl : option element;
  inf_cte_supl : option element;
  inf_prot : option element }.

Definition parse_nodes (root_proc : element) : result nodes :=
  cte_os <- find root_proc (URL +++ "CTeOS") None ;;
  prot_cte <- find root_proc (URL +++ "protCTe") None ;;
  c <- on cte_os ;;
  inf_cte <- find c (URL +++ "infCte") None ;;
  ic <- on inf_cte ;;
  ide <- find ic (URL +++ "ide") None ;;
  emit <- find ic (URL +++ "emit") None ;;
  toma <- find ic (URL +++ "toma") None ;;
  v_prest <- find ic (URL +++ "vPrest") None ;;
  imp <- find ic (URL +++ "imp") None ;;
  inf_cte_norm <- find ic (URL +++ "infCTeNorm") None ;;
  icn <- on inf_cte_norm ;;
  inf_carga <- find icn (URL +++ "infCarga") None ;;
  inf_doc <- find icn (URL +++ "infDoc") None ;;
  inf_modal <- find icn (URL +++ "infModal") None ;;
  compl <- find ic (URL +++ "compl") None ;;
  inf_cte_supl <- find ic (URL +++ "infCTeSupl") None ;;
  p <- on prot_cte ;;
  inf_prot <- find p (URL +++ "infProt") None ;;
  Ok (mkNodes c p ic ide emit toma v_prest imp icn inf_carga inf_doc inf_modal
              compl inf_cte_supl inf_prot).

(** ** Lines 104-136: identification *)

(** [DacteOS._get_usage_protocol]. *)
Definition get_usage_protocol (inf_prot : option element) : result string :=
  match inf_prot with
  | Some p =>
      dh_recbto_iso <- find_text (Some p) "dhRecbto" ;;
      dh_recbto_obj <- match fromisoformat dh_recbto_iso with
                       | Some d => Ok d
                       | None => Err ValueError
                       end ;;
      let dh_recbto_formatted := strftime_dmy_hms dh_recbto_obj in
      nprot <- find_text (Some p) "nProt" ;;
      Ok (nprot +++ "-" +++ dh_recbto_formatted)
  | None => Ok "N/A"
  end.

(** Lines 122-127: the emission timestamp, raw when it does not parse. *)
Definition format_dh_emi (dh_emi_iso : string) : string :=
  match fromisoformat dh_emi_iso with
  | Some dh_emi_obj => strftime_dmy_hms dh_emi_obj
  | None => dh_emi_iso
  end.

Record ident := mkIdent {
  orientation : string;
  nr_dacte : string;
  serie_cte : string;
  key_cte : string;
  tp_cte : string;
  tp_serv : string;
  prot_uso : string;
  dh_emi_formatted : string;
  mod_ : string;
  cfop : string;
  nat_op : string;
  x_mun_ini : string;
  uf_ini : string;
  x_mun_fim : string;
  uf_fim : string }.

Definition extract_ident (u : utils) (nd : nodes) : result ident :=
  let ide := ide nd in
  tpImp <- find_text ide "tpImp" ;;
  let orientation := if String.eqb tpImp "1" then "P" else "L" in
  nr_dacte <- find_text ide "nCT" ;;
  serie_cte <- find_text ide "serie" ;;
  let id_attr := match assoc_get "Id" (el_attrib (inf_cte nd)) with
                 | Some v => v | None => "" end in
  let key_cte := py_replace id_attr "CTe" "" in
  tp_cte_code <- find_text ide "tpCTe" ;;
  let tp_cte := dict_get (TP_CTE u) tp_cte_code "N/A" in
  tp_serv_code <- find_text ide "tpServ" ;;
  let tp_serv := dict_get (TP_SERVICO u) tp_serv_code "N/A" in
  prot_uso <- get_usage_protocol (inf_prot nd) ;;
  dh_emi_iso <- find_text ide "dhEmi" ;;
  let dh_emi_formatted := format_dh_emi dh_emi_iso in
  mod_ <- find_text ide "mod" ;;
  cfop <- find_text ide "CFOP" ;;
  nat_op <- find_text ide "natOp" ;;
  x_mun_ini <- find_text ide "xMunIni" ;;
  uf_ini <- find_text ide "UFIni" ;;
  x_mun_fim <- find_text ide "xMunFim" ;;
  uf_fim <- find_text ide "UFFim" ;;
  Ok (mkIdent orientation nr_dacte serie_cte key_cte tp_cte tp_serv prot_uso
              dh_emi_formatted mod_ cfop nat_op x_mun_ini uf_ini x_mun_fim uf_fim).

(** ** Lines 138-153: the service taker *)

Record tomador := mkTomador {
  toma_type_code : string;
  toma_desc : string;
  tomador_xnome : string;
  tomador_cnpj_cpf : string;
  tomador_ie : string;
  tomador_xlgr : string;
  tomador_nro : string;
  tomador_xcpl : string;
  tomador_xbairro : string;
  tomador_xmun : string;
  tomador_uf : string;
  tomador_cep : string;
  tomador_xpais : string;
  tomador_fone : string }.

Definition extract_tomador (u : utils) (nd : nodes) : result tomador :=
  let toma := toma_node nd in
  code <- find_text toma "toma" ;;
  let desc := dict_get (TP_TOMADOR u) code "N/A" in
  xnome <- find_text toma "xNome" ;;
  cnpj0 <- find_text toma "CNPJ" ;;
  cnpj <- format_cpf_cnpj u cnpj0 ;;
  ie <- find_text toma "IE" ;;
  (* each of the next lines calls [self.toma_node.find(f"{URL}enderToma")];
     the lookup is pure, it is done once here *)
  t <- on toma ;;
  ender <- find t (URL +++ "enderToma") None ;;
  xlgr <- find_text ender "xLgr" ;;
  nro <- find_text ender "nro" ;;
  xcpl <- find_text ender "xCpl" ;;
  xbairro <- find_text ender "xBairro" ;;
  xmun <- find_text ender "xMun" ;;
  uf <- find_text ender "UF" ;;
  cep0 <- find_text ender "CEP" ;;
  cep <- format_cep u cep0 ;;
  xpais <- find_text ender "xPais" ;;
  fone0 <- find_text toma "fone" ;;
  fone <- format_phone u fone0 ;;
  Ok (mkTomador code desc xnome cnpj ie xlgr nro xcpl xbairro xmun uf cep xpais fone).

(** ** Lines 155-162: the values of the service *)

Record values := mkValues {
  v_tprest : string;
  v_rec : string;
  comp_list : list (string * string) }.

Definition extract_values (u : utils) (cfg : config) (nd : nodes) : result values :=
  let pp := price_precision cfg in
  s1 <- find_text (v_prest nd) "vTPrest" ;;
  v_tprest <- format_number u s1 pp ;;
  s2 <- find_text (v_prest nd) "vRec" ;;
  v_rec <- format_number u s2 pp ;;
  comps <- match v_prest nd with
           | Some vp =>
               comp_nodes <- findall vp (URL +++ "Comp") None ;;
               mapM (fun comp =>
                       name <- find_text (Some comp) "xNome" ;;
                       s <- find_text (Some comp) "vComp" ;;
                       value <- format_number u s pp ;;
                       Ok (name, value))
                    comp_nodes
           | None => Ok []
           end ;;
  Ok (mkValues v_tprest v_rec comps).

(** ** Lines 164-192: the tax block *)

Record tax := mkTax {
  icms_cst : string;
  icms_vbc : string;
  icms_p_icms : string;
  icms_v_icms : string;
  icms_pred_bc : string;
  icms_st : string;
  cst_desc : string }.

Definition extract_tax (u : utils) (cfg : config) (imp : option element) : result tax :=
  let pp := price_precision cfg in
  i <- on imp ;;
  outra_uf <- find i (URL +++ "ICMS/" +++ URL +++ "ICMSOutraUF") None ;;
  t <- match outra_uf with
       | Some o =>
           cst <- find_text (Some o) "CST" ;;
           s1 <- find_text (Some o) "vBCOutraUF" ;;
           vbc <- format_number u s1 pp ;;
           a2 <- find_text (Some o) "pFCPUFFim" ;;
           s2 <- (if String.eqb a2 "" then find_text (Some o) "pICMSOutraUF" else Ok a2) ;;
           p_icms <- format_number u s2 pp ;;
           a3 <- find_text (Some o) "vFCPUFFim" ;;
           s3 <- (if String.eqb a3 "" then find_text (Some o) "vICMSOutraUF" else Ok a3) ;;
           v_icms <- format_number u s3 pp ;;
           Ok (cst, vbc, p_icms, v_icms, "0.00", "0.00")
       | None =>
           icms_node <- find i (URL +++ "ICMS/" +++ URL +++ "ICMS00") None ;;
           match icms_node with
           | Some n =>
               if py_truthy icms_node then
                 cst <- find_text (Some n) "CST" ;;
                 s1 <- find_text (Some n) "vBC" ;;
                 vbc <- format_number u s1 pp ;;
                 s2 <- find_text (Some n) "pICMS" ;;
                 p_icms <- format_number u s2 pp ;;
                 s3 <- find_text (Some n) "vICMS" ;;
                 v_icms <- format_number u s3 pp ;;
                 s4 <- find_text (Some n) "pRedBC" ;;
                 pred_bc <- format_number u s4 pp ;;
                 s5 <- find_text (Some n) "vICMSST" ;;
                 st <- format_number u s5 pp ;;
                 Ok (cst, vbc, p_icms, v_icms, pred_bc, st)
               else Ok ("", "0.00", "0.00", "0.00", "0.00", "0.00")
           | None => Ok ("", "0.00", "0.00", "0.00", "0.00", "0.00")
           end
       end ;;
  let '(cst, vbc, p_icms, v_icms, pred_bc, st) := t in
  Ok (mkTax cst vbc p_icms v_icms pred_bc st (dict_get (TP_ICMS u) cst "Outros")).

(** ** Lines 194-212: service and cargo *)

Record cargo_entry := mkCargo {
  c_unid : string;
  tp_med : string;
  q_carga_entry : string;
  unit_abbr : string }.

Record service := mkService {
  x_desc_serv : string;
  q_carga : string;
  modal_code : string;
  modal_desc : string;
  inf_carga_list : list cargo_entry }.

Definition extract_service (u : utils) (cfg : config) (nd : nodes) : result service :=
  let qp := quantity_precision cfg in
  let icn := inf_cte_norm nd in
  inf_servico <- find icn (URL +++ "infServico") None ;;
  x_desc_serv <- find_text inf_servico "xDescServ" ;;
  inf_q <- find icn (URL +++ "infServico/" +++ URL +++ "infQ") None ;;
  q <- find_text inf_q "qCarga" ;;
  q_carga <- format_number u q qp ;;
  modal_code <- find_text (ide nd) "modal" ;;
  let modal_desc := dict_get (TP_MODAL u) modal_code "N/A" in
  cargo <- match inf_carga nd with
           | Some c =>
               inf_qs <- findall c (URL +++ "infQ") None ;;
               mapM (fun infQ_node =>
                       cUnid <- find_text (Some infQ_node) "cUnid" ;;
                       tpMed <- find_text (Some infQ_node) "tpMed" ;;
                       qCarga_val <- find_text (Some infQ_node) "qCarga" ;;
                       qf <- format_number u qCarga_val qp ;;
                       Ok (mkCargo cUnid tpMed qf
                                   (dict_get (TP_CODIGO_MEDIDA_REDUZIDO u) cUnid "")))
                    inf_qs
           | None => Ok []
           end ;;
  Ok (mkService x_desc_serv q_carga modal_code modal_desc cargo).

(** ** Lines 214-222: referenced documents *)

(** One loop of lines 217-222: the non-empty [chave] of each node. *)
Fixpoint collect_chaves (l : list element) : result (list string) :=
  match l with
  | [] => Ok []
  | n :: l' =>
      chave <- find_text (Some n) "chave" ;;
      rest <- collect_chaves l' ;;
      Ok (if String.eqb chave "" then rest else chave :: rest)
  end.

(** The key of a reference node, as [find_text] reads it. *)
Definition chave_of (n : element) : string :=
  match find_text (Some n) "chave" with Ok c => c | Err _ => "" end.

Definition extract_inf_doc (inf_doc : option element) : result (list string) :=
  match inf_doc with
  | Some d =>
      nfe_nodes <- findall d (URL +++ "infNFe") None ;;
      nfes <- collect_chaves nfe_nodes ;;
      cte_nodes <- findall d (URL +++ "infCTe") None ;;
      ctes <- collect_chaves cte_nodes ;;
      Ok (nfes ++ ctes)
  | None => Ok []
  end.

(** ** Lines 224-231: observations *)

(** [node.text.strip()] for a node found: [None.strip()] raises. *)
Definition text_strip (x : element) : result string :=
  t <- on (el_text x) ;; Ok (strip t).

Definition extract_obs (compl : option element) : result string :=
  obs_list <- match compl with
              | Some c =>
                  x_obs <- find c (URL +++ "xObs") None ;;
                  first <- match x_obs with
                           | Some x => t <- text_strip x ;; Ok [t]
                           | None => Ok []
                           end ;;
                  obs_conts <- findall c (URL +++ "ObsCont") None ;;
                  rest <- mapM (fun obs_cont_node =>
                                  x_texto <- find obs_cont_node (URL +++ "xTexto") None ;;
                                  match x_texto with
                                  | Some x => t <- text_strip x ;; Ok [t]
                                  | None => Ok []
                                  end)
                               obs_conts ;;
                  Ok (first ++ concat rest)
              | None => Ok []
              end ;;
  Ok (String.concat " " obs_list).

(** ** Lines 233-246: road-modal data and QR code *)

(** The vehicle plate and state are [None] when they are never assigned
    (a [rodoOS] without [veic]): reading them later raises. *)
Record modal := mkModal {
  nro_reg_estadual : string;
  placa_veiculo : option string;
  uf_veiculo : option string }.

Definition extract_modal (inf_modal : option element) : result modal :=
  im <- on inf_modal ;;
  rodo_os <- find im (URL +++ "rodoOS") None ;;
  match rodo_os with
  | Some r =>
      nro <- find_text (Some r) "NroRegEstadual" ;;
      veic <- find r (URL +++ "veic") None ;;
      match veic with
      | Some v =>
          placa <- find_text (Some v) "placa" ;;
          uf <- find_text (Some v) "UF" ;;
          Ok (mkModal nro (Some placa) (Some uf))
      | None => Ok (mkModal nro None None)
      end
  | None => Ok (mkModal "" (Some "") (Some ""))
  end.

Definition extract_qr (nd : nodes) : result string :=
  qr_code_data <- find_text (inf_cte_supl nd) "qrCodCTe" ;;
  Ok (py_replace qr_code_data "&amp;" "&").

(** ** The document view *)

Record view := mkView {
  v_nodes : nodes;
  v_ident : ident;
  v_tomador : tomador;
  v_values : values;
  v_tax : tax;
  v_service : service;
  inf_doc_list : list string;
  combined_obs : string;
  v_modal : modal;
  qr_code_data_unescaped : string }.

(** ** Drawing phases (lines 264-780) *)

(** A text draw call: a cell, or the rotated text of the watermark. *)
Inductive draw_op :=
| Cell (text : string)
| RotText (text : string).

Definition page := list draw_op.

Definition is_cell (op : draw_op) : bool :=
  match op with Cell _ => true | RotText _ => false end.

(** [[s[i:i + n] for i in range(0, len(s), n)]] with [0 < n]; [fuel] is
    the number of chunks still allowed. *)
Fixpoint chunks (n fuel : nat) (s : string) : list string :=
  match fuel with
  | O => []
  | S f =>
      match s with
      | EmptyString => []
      | _ => substring 0 n s :: chunks n f (substring n (String.length s) s)
      end
  end.

(** Line 408: the access key for display. *)
Definition format_key (key : string) : string :=
  String.concat " " (chunks 4 (String.length key) key).

Definition draw_receipt_section (v : view) : result page :=
  let i := v_ident v in
  Ok [Cell (nr_dacte i); Cell (serie_cte i);
      Cell ("NRO. DOCUMENTO " +++ nr_dacte i); Cell ("SERIE " +++ serie_cte i)].

Definition draw_header_section (u : utils) (v : view) : result page :=
  let i := v_ident v in
  let emit := emit (v_nodes v) in
  xnome <- find_text emit "xNome" ;;
  (* each of the next lines calls [self.emit.find(f"{URL}enderEmit")];
     the lookup is pure, it is done once here *)
  e <- on emit ;;
  ender <- find e (URL +++ "enderEmit") None ;;
  xlgr <- find_text ender "xLgr" ;;
  nro <- find_text ender "nro" ;;
  xbairro <- find_text ender "xBairro" ;;
  cep0 <- find_text ender "CEP" ;;
  cep <- format_cep u cep0 ;;
  xmun <- find_text ender "xMun" ;;
  uf <- find_text ender "UF" ;;
  fone0 <- find_text ender "fone" ;;
  fone <- format_phone u fone0 ;;
  cnpj0 <- find_text (Some e) "CNPJ" ;;
  cnpj <- format_cpf_cnpj u cnpj0 ;;
  ie <- find_text (Some e) "IE" ;;
  let formatted_key := format_key (key_cte i) in
  _ <- draw_qr_code u (qr_code_data_unescaped v) ;;
  Ok [Cell (upper xnome);
      Cell ("RUA " +++ xlgr +++ ". " +++ nro);
      Cell (xbairro +++ "-" +++ cep +++ "-" +++ xmun +++ "-" +++ uf);
      Cell ("Fone/Fax: " +++ fone);
      Cell ("CNPJ/CPF: " +++ cnpj +++ " Insc. Estadual: " +++ ie);
      Cell (mod_ i); Cell (serie_cte i); Cell (nr_dacte i); Cell (dh_emi_formatted i);
      Cell ("TIPO DO CTE: " +++ tp_cte i);
      Cell ("TIPO DO SERVIÇO: " +++ tp_serv i);
      Cell formatted_key;
      Cell (prot_uso i)].

Definition draw_percurso_and_cfop (v : view) : result page :=
  let i := v_ident v in
  Ok [Cell (cfop i +++ "-" +++ nat_op i);
      Cell (x_mun_ini i +++ "-" +++ uf_ini i);
      Cell (x_mun_fim i +++ "-" +++ uf_fim i)].

Definition draw_tomador_section (v : view) : result page :=
  let t := v_tomador v in
  let address_line_1 :=
    "ENDEREÇO: " +++ tomador_xlgr t +++ ", " +++ tomador_nro t
    +++ (if String.eqb (tomador_xcpl t) "" then "" else "-" +++ tomador_xcpl t)
    +++ "-" +++ tomador_xbairro t in
  let address_line_2 :=
    "MUNICÍPIO: " +++ tomador_xmun t +++ " UF: " +++ tomador_uf t
    +++ " CEP: " +++ tomador_cep t in
  let address_line_3 := "PAIS: " +++ tomador_xpais t +++ " FONE: " +++ tomador_fone t in
  Ok [Cell (tomador_xnome t); Cell address_line_1;
      Cell ("CNPJ/CPF: " +++ tomador_cnpj_cpf t);
      Cell ("INSCRIÇÃO ESTADUAL: " +++ tomador_ie t);
      Cell address_line_2; Cell address_line_3].

Definition draw_service_info_and_values (u : utils) (v : view) : result page :=
  let s := v_service v in
  let vl := v_values v in
  let tx := v_tax v in
  let comps := flat_map (fun '(name, value) =>
                           [Cell ("NOME: " +++ name); Cell ("VALOR: " +++ value)])
                        (firstn 6 (comp_list vl)) in
  total <- float_2f u (py_replace (v_tprest vl) "," ".") ;;
  rec <- float_2f u (py_replace (v_rec vl) "," ".") ;;
  Ok ([Cell ("DESCRIÇÃO DO SERVIÇO PRESTADO: " +++ x_desc_serv s);
       Cell ("QUANTIDADE: " +++ q_carga s +++ " MODAL: " +++ modal_desc s)]
      ++ comps
      ++ [Cell ("R$ " +++ total); Cell ("R$ " +++ rec);
          Cell (icms_cst tx +++ "-" +++ cst_desc tx);
          Cell (icms_vbc tx); Cell (icms_p_icms tx); Cell (icms_v_icms tx);
          Cell (icms_pred_bc tx); Cell (icms_st tx)]).

(** Lines 662-665: series and number of a referenced document; [int]
    raises on a slice that is not a number. *)
Definition serie_doc (chave : string) : string := py_slice chave 22 25.

Definition formatted_nro_doc (chave : string) : result string :=
  let nro_doc := py_slice chave 25 34 in
  n <- py_int nro_doc ;;
  Ok (py_replace (format_zero_grouped 11 n) "," ".").

(** Lines 653-667: one row of the referenced-documents table. *)
Definition document_row (chave : string) : result page :=
  f <- formatted_nro_doc chave ;;
  Ok [Cell "NFE"; Cell chave; Cell (serie_doc chave +++ "/" +++ f)].

Definition draw_documents_and_observations (v : view) : result page :=
  rows <- mapM document_row (inf_doc_list v) ;;
  Ok (concat rows ++ [Cell (combined_obs v)]).

Definition draw_modal_specific_data_rodo_os (v : view) : result page :=
  let m := v_modal v in
  placa <- on (placa_veiculo m) ;;
  uf <- on (uf_veiculo m) ;;
  Ok [Cell ("PLACA DO VEÍCULO: " +++ placa); Cell ("UF: " +++ uf);
      Cell ("N DE REGISTRO ESTADUAL: " +++ nro_reg_estadual m)].

Definition draw_footer_declaration (u : utils) : result page :=
  Ok [Cell ("Impresso em " +++ now_str u +++ " LuzCon RecebeMais")].

Definition watermark_text : string := "SEM VALOR FISCAL".

Definition draw_void_watermark_conditional (v : view) : result page :=
  tpAmb <- find_text (ide (v_nodes v)) "tpAmb" ;;
  let is_production_environment := String.eqb tpAmb "1" in
  let is_protocol_available := py_truthy (inf_prot (v_nodes v)) in
  if negb (is_production_environment && is_protocol_available)
  then Ok [RotText watermark_text]
  else Ok [].

(** Lines 251-262: the drawing phases in order. *)
Definition render (u : utils) (v : view) : result page :=
  p1 <- draw_receipt_section v ;;
  p2 <- draw_header_section u v ;;
  p3 <- draw_percurso_and_cfop v ;;
  p4 <- draw_tomador_section v ;;
  p5 <- draw_service_info_and_values u v ;;
  p6 <- draw_documents_and_observations v ;;
  p7 <- draw_modal_specific_data_rodo_os v ;;
  p8 <- draw_footer_declaration u ;;
  p9 <- draw_void_watermark_conditional v ;;
  Ok (p1 ++ p2 ++ p3 ++ p4 ++ p5 ++ p6 ++ p7 ++ p8 ++ p9).

(** ** [DacteOS.__init__] *)

Definition extract_view (u : utils) (cfg : config) (root_proc : element) : result view :=
  nd <- parse_nodes root_proc ;;
  id <- extract_ident u nd ;;
  tm <- extract_tomador u nd ;;
  vl <- extract_values u cfg nd ;;
  tx <- extract_tax u cfg (imp nd) ;;
  sv <- extract_service u cfg nd ;;
  docs <- extract_inf_doc (inf_doc nd) ;;
  obs <- extract_obs (compl nd) ;;
  md <- extract_modal (inf_modal nd) ;;
  qr <- extract_qr nd ;;
  Ok (mkView nd id tm vl tx sv docs obs md qr).

Definition dacteos (u : utils) (cfg : config) (root_proc : element) : result (view * page) :=
  v <- extract_view u cfg root_proc ;;
  pg <- render u v ;;
  Ok (v, pg).

(** ** Lines 28-40 and the vertical cursor of the drawing phases *)

(** [reportlab.lib.units]: [inch = 72.0], [cm = inch / 2.54],
    [mm = cm * 0.1].  The coordinates are exact rationals here; Python
    computes them in floating point. *)
Definition inch : Q := 72.
Definition cm : Q := inch / (254 # 100).
Definition mm : Q := cm * (1 # 10).

(** [DacteOSLayout] and its defaults. *)
Record DacteOSLayout := mkLayout {
  receipt_height : Q;
  header_height : Q;
  percurso_height : Q;
  tomador_height : Q;
  service_height : Q;
  documents_height : Q;
  modal_height : Q;
  footer_height : Q }.

Definition default_layout : DacteOSLayout :=
  mkLayout (17 * mm) (70 * mm) (14 * mm) (24 * mm) (48 * mm) (37 * mm) (26 * mm) (8 * mm).

(** [self.y] after each phase, from [self.y] before it.  The receipt starts
    at the top margin [t_margin]; the footer declaration does not move the
    cursor. *)
Definition receipt_section_y (lay : DacteOSLayout) (t_margin : Q) : Q :=
  let y_pos := t_margin in
  let box_h := receipt_height lay in
  y_pos + box_h + 2 * mm.

Definition header_section_y (lay : DacteOSLayout) (y : Q) : Q :=
  let y_pos := y in
  let y_pos_key_qr := y_pos + header_height lay - 35 * mm in
  y_pos_key_qr + 35 * mm + 2 * mm.

Definition percurso_and_cfop_y (y : Q) : Q :=
  let y_pos := y + 7 * mm in
  y_pos + 7 * mm + 2 * mm.

Definition tomador_section_y (lay : DacteOSLayout) (y : Q) : Q :=
  y + tomador_height lay + 2 * mm.

Definition service_info_and_values_y (y : Q) : Q :=
  let y_pos := y + 16 * mm in
  let y_pos' := y_pos + 20 * mm in
  y_pos' + 10 * mm + 2 * mm.

Definition documents_and_observations_y (lay : DacteOSLayout) (y : Q) : Q :=
  let y_pos_obs := y + documents_height lay + 2 * mm in
  let y_pos_tributos_info := y_pos_obs + 12 * mm in
  y_pos_tributos_info + 4 * mm + 2 * mm.

Definition modal_specific_data_rodo_os_y (lay : DacteOSLayout) (y : Q) : Q :=
  let y_pos_footer := y + modal_height lay + 2 * mm in
  y_pos_footer + footer_height lay + 2 * mm.

(** The [y_pos] each of the eight phases of lines 252-259 starts from. *)
Definition phase_starts (lay : DacteOSLayout) (t_margin : Q) : list Q :=
  let y1 := receipt_section_y lay t_margin in
  let y2 := header_section_y lay y1 in
  let y3 := percurso_and_cfop_y y2 in
  let y4 := tomador_section_y lay y3 in
  let y5 := service_info_and_values_y y4 in
  let y6 := documents_and_observations_y lay y5 in
  let y7 := modal_specific_data_rodo_os_y lay y6 in
  [t_margin; y1; y2; y3; y4; y5; y6; y7].

(** The footer declaration draws two rows of cells [4 * mm] high from its
    [y_pos]: the bottom of the last row. *)
Definition footer_bottom (lay : DacteOSLayout) (t_margin : Q) : Q :=
  last (phase_starts lay t_margin) 0 + 4 * mm + 4 * mm.

(** The page height of [format="A4"] in the document unit ([unit="mm"]). *)
Definition a4_height : Q := 297.

(** ** A sample document *)

Definition leaf (t s : string) : element := Element (ns_tag t) [] (Some s) [].
Definition node (t : string) (cs : list element) : element := Element (ns_tag t) [] None cs.

Definition sample_key : string := "35240112345678000190670010000012341000012345".
Definition sample_nfe : string := "35240111222333000144550010000456781000045678".
Definition sample_cte : string := "35240199888777000166570020000987651000098765".

Definition sample_ide (tpAmb : string) : element :=
  node "ide" [leaf "tpImp" "1"; leaf "nCT" "1234"; leaf "serie" "1";
              leaf "mod" "67"; leaf "CFOP" "5357"; leaf "natOp" "TRANSPORTE";
              leaf "tpAmb" tpAmb; leaf "dhEmi" "2024-01-15T10:30:00-03:00";
              leaf "xMunIni" "SAO PAULO"; leaf "UFIni" "SP";
              leaf "xMunFim" "CAMPINAS"; leaf "UFFim" "SP"; leaf "modal" "01"].

Definition sample_inf_cte (tpAmb : string) (imp : list element) (norm : list element) : element :=
  Element (ns_tag "infCte") [("Id", "CTe" +++ sample_key); ("versao", "4.00")] None
    ([sample_ide tpAmb;
      node "emit" [leaf "CNPJ" "12345678000190"; leaf "IE" "123"; leaf "xNome" "Transportes Ltda";
                   node "enderEmit" [leaf "xLgr" "A"; leaf "nro" "1"; leaf "xBairro" "B";
                                     leaf "CEP" "01000000"; leaf "xMun" "SAO PAULO"; leaf "UF" "SP"]];
      node "toma" [leaf "CNPJ" "11222333000144"; leaf "xNome" "Cliente SA";
                   node "enderToma" [leaf "xLgr" "C"; leaf "nro" "2"; leaf "xBairro" "D";
                                     leaf "xMun" "CAMPINAS"; leaf "UF" "SP"; leaf "CEP" "13000000"]];
      node "vPrest" [leaf "vTPrest" "100.00"; leaf "vRec" "100.00";
                     node "Comp" [leaf "xNome" "FRETE"; leaf "vComp" "100.00"]]]
     ++ imp
     ++ [node "infCTeNorm" norm;
         node "infCTeSupl" [leaf "qrCodCTe" "https://x?chCTe=1&amp;tpAmb=1"]]).

Definition sample_imp : list element :=
  [node "imp" [node "ICMS" [node "ICMS00" [leaf "CST" "00"; leaf "vBC" "100.00";
                                           leaf "pICMS" "12.00"; leaf "vICMS" "12.00"]]]].

Definition sample_norm (docs : list element) : list element :=
  [node "infServico" [leaf "xDescServ" "FRETAMENTO"; node "infQ" [leaf "qCarga" "1"]];
   node "infDoc" docs;
   node "infModal" [node "rodoOS" [leaf "NroRegEstadual" "99";
                                   node "veic" [leaf "placa" "ABC1234"; leaf "UF" "SP"]]]].

Definition sample_docs : list element :=
  [node "infNFe" [leaf "chave" sample_nfe]; node "infCTe" [leaf "chave" sample_cte]].

Definition reversed_docs : list element :=
  [node "infCTe" [leaf "chave" sample_cte]; node "infNFe" [leaf "chave" sample_nfe]].

Definition sample_prot (inf_prot : list element) : element := node "protCTe" inf_prot.

Definition sample_inf_prot : element :=
  node "infProt" [leaf "nProt" "135240000000001"; leaf "dhRecbto" "2024-01-15T10:31:00-03:00"].

Definition sample_doc_with (tpAmb : string) (imp norm prot : list element) : element :=
  node "cteOSProc" ([node "CTeOS" [sample_inf_cte tpAmb imp norm]] ++ prot).

Definition sample_doc (tpAmb : string) : element :=
  sample_doc_with tpAmb sample_imp (sample_norm sample_docs) [sample_prot [sample_inf_prot]].

(** Variants of the sample: no tax block; no modal block; an unparseable
    receipt timestamp; an [infProt] element with no children. *)
Definition doc_no_imp : element :=
  sample_doc_with "1" [] (sample_norm sample_docs) [sample_prot [sample_inf_prot]].

Definition norm_no_modal : list element :=
  [node "infServico" [leaf "xDescServ" "FRETAMENTO"; node "infQ" [leaf "qCarga" "1"]];
   node "infDoc" sample_docs].

Definition doc_no_modal : element :=
  sample_doc_with "1" sample_imp norm_no_modal [sample_prot [sample_inf_prot]].

Definition bad_inf_prot : element :=
  node "infProt" [leaf "nProt" "135240000000001"; leaf "dhRecbto" "15/01/2024 10:31:00"].

Definition doc_bad_recbto : element :=
  sample_doc_with "1" sample_imp (sample_norm sample_docs) [sample_prot [bad_inf_prot]].

Definition empty_inf_prot : element := node "infProt" [].

Definition doc_empty_prot : element :=
  sample_doc_with "1" sample_imp (sample_norm sample_docs) [sample_prot [empty_inf_prot]].

(** Helpers that format nothing and never raise. *)
Definition plain_utils : utils :=
  mkUtils (fun s _ => Ok s) (fun s => Ok s) (fun s => Ok s) (fun s => Ok s)
          (fun s => Ok s) (fun _ => Ok tt)
          (fun _ => None) (fun _ => None) (fun _ => None) (fun _ => None)
          (fun _ => None) (fun _ => None) "15/01/2024 11:00:00".

Definition plain_config : config := mkConfig 2 4.


(** More variants: a short document key; an [xObs] element with no text; a
    [rodoOS] without [veic]; an [infModal] without [rodoOS]; no [protCTe];
    no [toma]. *)
Definition doc_short_key : element :=
  sample_doc_with "1" sample_imp (sample_norm [node "infNFe" [leaf "chave" "3524"]])
    [sample_prot [sample_inf_prot]].

Definition doc_obs_no_text : element :=
  sample_doc_with "1" (sample_imp ++ [node "compl" [node "xObs" []]])
    (sample_norm sample_docs) [sample_prot [sample_inf_prot]].

Definition norm_modal (modal_children : list element) : list element :=
  [node "infServico" [leaf "xDescServ" "FRETAMENTO"; node "infQ" [leaf "qCarga" "1"]];
   node "infDoc" sample_docs;
   node "infModal" modal_children].

Definition doc_no_veic : element :=
  sample_doc_with "1" sample_imp (norm_modal [node "rodoOS" [leaf "NroRegEstadual" "99"]])
    [sample_prot [sample_inf_prot]].

Definition doc_no_rodo : element :=
  sample_doc_with "1" sample_imp (norm_modal []) [sample_prot [sample_inf_prot]].

Definition doc_no_prot : element :=
  sample_doc_with "1" sample_imp (sample_norm sample_docs) [].

Definition without (t : string) (l : list element) : list element :=
  filter (fun e => negb (String.eqb (el_tag e) (ns_tag t))) l.

Definition doc_no_toma : element :=
  node "cteOSProc"
    [node "CTeOS"
       [match sample_inf_cte "1" sample_imp (sample_norm sample_docs) with
        | Element t a x cs => Element t a x (without "toma" cs)
        end];
     sample_prot [sample_inf_prot]].

(** ** Decimal strings used by the properties *)

Definition is_digit (c : ascii) : bool :=
  match digit_val c with Some _ => true | None => false end.

Fixpoint all_digits (s : string) : bool :=
  match s with
  | EmptyString => true
  | String c s' => is_digit c && all_digits s'
  end.

Definition dv (c : ascii) : Z := (Z.of_nat (nat_of_ascii c) - 48)%Z.

(** The value of a string of digits read after [acc]. *)
Fixpoint dval (s : string) (acc : Z) : Z :=
  match s with
  | EmptyString => acc
  | String c s' => dval s' (acc * 10 + dv c)%Z
  end.

(** [s.replace(c, new)] for a single character [c]. *)
Fixpoint map_replace (c : ascii) (new s : string) : string :=
  match s with
  | EmptyString => EmptyString
  | String d s' => if Ascii.eqb c d then new +++ map_replace c new s' else String d (map_replace c new s')
  end.

Fixpoint digits_only (s : string) : string :=
  match s with
  | EmptyString => EmptyString
  | String c s' => if is_digit c then String c (digits_only s') else digits_only s'
  end.

(** ** Tag names and lookups used by the properties *)

(** A character that may start a tag name here: a tag character that is
    neither an operator of the path language, a brace nor a quote. *)
Definition name_char (c : ascii) : bool :=
  is_tag_char c && negb (is_op1 c) && negb (Ascii.eqb c "{") && negb (Ascii.eqb c "}")
  && negb (is_quote c).

(** A character that may follow: the same, or a dot. *)
Definition name_tail_char (c : ascii) : bool := name_char c || Ascii.eqb c ".".

Fixpoint all_chars (f : ascii -> bool) (s : string) : bool :=
  match s with
  | EmptyString => true
  | String c s' => f c && all_chars f s'
  end.

(** A non-empty unqualified tag name such as [nProt] or [infCTeNorm]. *)
Definition is_name (s : string) : bool :=
  match s with
  | EmptyString => false
  | String c r => name_char c && all_chars name_tail_char r
  end.

(** A tag name as [find_text] takes it: a name, or [prefix:name] whose
    prefix is bound in the namespace map. *)
Definition is_tag_name (ns : list (string * string)) (xpath : string) : bool :=
  is_name xpath
  || (contains_char ":" xpath
      && (let '(p, n) := split_first ":" xpath in
          is_name p && is_name n
          && match assoc_get p ns with Some _ => true | None => false end)).

(** The descendants of [e] with tag [t], in document order. *)
Definition desc_tagged (t : string) (e : element) : list element :=
  filter (fun c => String.eqb (el_tag c) t) (descendants e).

(** A step that selects among the children. *)
Definition child_step (st : step) : bool :=
  match st with SChild _ | SChildWild _ => true | _ => false end.

(** The tag name the fallback lookup uses. *)
Definition unprefixed (xpath : string) : string :=
  if contains_char ":" xpath then last_segment ":" xpath else xpath.

Definition ns_of (namespace : option (list (string * string))) : list (string * string) :=
  match namespace with Some n => n | None => default_namespace end.

(** ** Timestamps used by the properties *)

(** No UTC offset, or [+HH:MM] / [-HH:MM] with an hour below 24 and a
    minute below 60. *)
Definition utc_offset_ok (off : string) : bool :=
  match off with
  | EmptyString => true
  | String sg (String h1 (String h2 (String c (String m1 (String m2 EmptyString))))) =>
      is_sign sg && Ascii.eqb c ":"
      && all_digits (String h1 (String h2 EmptyString))
      && all_digits (String m1 (String m2 EmptyString))
      && (dval (String h1 (String h2 EmptyString)) 0 <? 24)%Z
      && (dval (String m1 (String m2 EmptyString)) 0 <? 60)%Z
  | _ => false
  end.

(** * Properties *)

(** ** Examples of the string and number operations *)

Example py_int_ex1 : py_int " 000012345 " = Ok 12345%Z. Proof. reflexivity. Qed.
Example py_int_ex2 : py_int "" = Err ValueError. Proof. reflexivity. Qed.
Example fmt_ex1 : format_zero_grouped 11 12345 = "000,012,345". Proof. reflexivity. Qed.
Example fmt_ex2 : format_zero_grouped 4 1 = "0,001". Proof. reflexivity. Qed.
Example fmt_ex3 : format_zero_grouped 11 (-5) = "-00,000,005". Proof. reflexivity. Qed.
Example iso_ex1 :
  option_map strftime_dmy_hms (fromisoformat "2024-02-29T13:05:09-03:00")
  = Some "29/02/2024 13:05:09".
Proof. reflexivity. Qed.
Example iso_ex2 : fromisoformat "" = None. Proof. reflexivity. Qed.
Example replace_ex : py_replace "CTe3519CTe" "CTe" "" = "3519". Proof. reflexivity. Qed.
Example strip_ex : strip "  ab c  " = "ab c". Proof. reflexivity. Qed.

(** ** The exception monad *)

Lemma bind_ok_inv {A B} (m : result A) (k : A -> result B) (b : B) :
  bind m k = Ok b -> exists a, m = Ok a /\ k a = Ok b.
Proof. destruct m as [a|e]; simpl; [eauto | discriminate]. Qed.

Lemma is_err_bind {A B} (m : result A) (k : A -> result B) :
  (forall a, m = Ok a -> is_err (k a) = true) -> is_err (bind m k) = true.
Proof. destruct m as [a|e]; simpl; auto. Qed.

Lemma is_err_bind_l {A B} (m : result A) (k : A -> result B) :
  is_err m = true -> is_err (bind m k) = true.
Proof. destruct m; simpl; auto; discriminate. Qed.

(** Splits every hypothesis [bind m k = Ok b] into [m = Ok a] and
    [k a = Ok b]. *)
Ltac inv_binds :=
  repeat match goal with
  | H : bind _ _ = Ok _ |- _ =>
      let a := fresh "a" in let Ha := fresh "Ha" in
      apply bind_ok_inv in H; destruct H as [a [Ha H]]; cbv beta zeta in H
  | H : Ok _ = Ok _ |- _ => injection H; clear H; intros; subst
  end.

(** ** Tag names *)

Lemma length_app (x y : string) :
  String.length (x +++ y) = (String.length x + String.length y)%nat.
Proof. induction x as [|c x IH]; simpl; [reflexivity|]. rewrite IH. reflexivity. Qed.

Lemma all_chars_app f x y : all_chars f (x +++ y) = all_chars f x && all_chars f y.
Proof. induction x as [|c x IH]; simpl; [reflexivity|]. rewrite IH. apply andb_assoc. Qed.

Lemma all_chars_impl (f g : ascii -> bool) s :
  (forall c, f c = true -> g c = true) -> all_chars f s = true -> all_chars g s = true.
Proof.
  intros Hfg. induction s as [|c s IH]; simpl; [reflexivity|].
  intros H. apply andb_prop in H as [H1 H2]. rewrite (Hfg c H1), (IH H2). reflexivity.
Qed.

Lemma all_chars_contains (f : ascii -> bool) a s :
  f a = false -> all_chars f s = true -> contains_char a s = false.
Proof.
  intros Ha. induction s as [|c s IH]; simpl; [reflexivity|].
  intros H. apply andb_prop in H as [H1 H2]. rewrite (IH H2), orb_false_r.
  destruct (Ascii.eqb_spec a c); [subst; congruence | reflexivity].
Qed.

(** What the first character of a name is not. *)
Lemma name_char_facts c : name_char c = true ->
  is_tag_char c = true /\ is_quote c = false /\ is_op1 c = false
  /\ Ascii.eqb c "{" = false /\ Ascii.eqb c ":" = false /\ Ascii.eqb c "/" = false
  /\ Ascii.eqb c "." = false /\ Ascii.eqb c "(" = false /\ Ascii.eqb c "!" = false.
Proof.
  destruct c as [[|][|][|][|][|][|][|][|]]; vm_compute; try discriminate;
    intros _; repeat split.
Qed.

Lemma name_tail_char_tag c : name_tail_char c = true -> is_tag_char c = true.
Proof. destruct c as [[|][|][|][|][|][|][|][|]]; vm_compute; congruence. Qed.

Lemma name_tail_char_not c : name_tail_char c = true ->
  Ascii.eqb ":" c = false /\ Ascii.eqb "/" c = false /\ Ascii.eqb "*" c = false.
Proof.
  destruct c as [[|][|][|][|][|][|][|][|]]; vm_compute; try discriminate;
    intros _; repeat split.
Qed.

Lemma name_char_tail c : name_char c = true -> name_tail_char c = true.
Proof. unfold name_tail_char. intros ->. reflexivity. Qed.

Lemma is_name_tail s : is_name s = true -> all_chars name_tail_char s = true.
Proof.
  destruct s as [|c r]; simpl; [discriminate|].
  intros H. apply andb_prop in H as [H1 H2]. rewrite (name_char_tail c H1), H2. reflexivity.
Qed.

(** A name holds no [:], [/] or [*]. *)
Lemma is_name_no a s : is_name s = true ->
  a = ":"%char \/ a = "/"%char \/ a = "*"%char -> contains_char a s = false.
Proof.
  intros Hs Ha. apply (all_chars_contains (fun c => negb (Ascii.eqb a c))).
  - destruct Ha as [ -> | [ -> | -> ] ]; reflexivity.
  - apply (all_chars_impl name_tail_char); [|apply is_name_tail; exact Hs].
    intros c Hc. destruct (name_tail_char_not c Hc) as [H1 [H2 H3]].
    destruct Ha as [ -> | [ -> | -> ] ]; rewrite ?H1, ?H2, ?H3; reflexivity.
Qed.

Lemma is_name_tag s : is_name s = true -> all_chars is_tag_char s = true.
Proof.
  intros H. apply (all_chars_impl name_tail_char); [exact name_tail_char_tag|].
  apply is_name_tail; exact H.
Qed.

(** ** Suffixes *)

Lemma ends_with_contains suf s a :
  ends_with suf s = true -> contains_char a suf = true -> contains_char a s = true.
Proof.
  induction s as [|c s IH]; intros H Ha.
  - cbn [ends_with] in H. rewrite orb_false_r in H.
    apply String.eqb_eq in H. subst. exact Ha.
  - cbn [ends_with] in H. apply orb_prop in H as [H|H].
    + apply String.eqb_eq in H. rewrite H. exact Ha.
    + cbn [contains_char]. rewrite (IH H Ha). apply orb_true_r.
Qed.

Lemma ends_with_app suf x y : (String.length suf <= String.length y)%nat ->
  ends_with suf (x +++ y) = ends_with suf y.
Proof.
  intros Hl. induction x as [|c x IH]; [reflexivity|].
  cbn [String.append ends_with]. rewrite IH.
  destruct (String.eqb_spec (String c (x +++ y)) suf) as [E|]; [|reflexivity].
  exfalso. apply (f_equal String.length) in E. cbn [String.length] in E.
  rewrite length_app in E. lia.
Qed.

Lemma ends_with_name suf a s :
  contains_char a suf = true -> contains_char a s = false -> ends_with suf s = false.
Proof.
  intros Ha Hs. destruct (ends_with suf s) eqn:E; [|reflexivity].
  rewrite (ends_with_contains suf s a E Ha) in Hs. discriminate.
Qed.

(** ** Tokens *)

Lemma span_tag_all s : all_chars is_tag_char s = true -> span_tag s = (s, EmptyString).
Proof.
  induction s as [|c s IH]; simpl; [reflexivity|].
  intros H. apply andb_prop in H as [H1 H2]. rewrite H1, (IH H2). reflexivity.
Qed.

Lemma tokenize_empty f : tokenize f EmptyString = [].
Proof. destruct f; reflexivity. Qed.

(** A run of tag characters that starts with a name character is one tag
    token. *)
Lemma tokenize_plain f c r :
  name_char c = true -> all_chars is_tag_char r = true ->
  tokenize (S f) (String c r) = [Tok "" (String c r)].
Proof.
  intros Hc Hr. destruct (name_char_facts c Hc) as (Ht & Hq & Ho & Hb & H1 & H2 & H3 & H4 & H5).
  cbn [tokenize]. unfold op_match. rewrite Hq, H1, H2, H3, H4, H5, Ho.
  cbn [andb]. rewrite Ht. unfold tag_match. rewrite Hb.
  rewrite (span_tag_all (String c r)); [|simpl; rewrite Ht, Hr; reflexivity].
  rewrite tokenize_empty. reflexivity.
Qed.

Lemma tokenize_op f c r op rest : op_match c r = Some (op, rest) ->
  tokenize (S f) (String c r) = Tok op "" :: tokenize f rest.
Proof. intros H. cbn [tokenize]. rewrite H. reflexivity. Qed.

Lemma tokenize_tag f c r t rest : op_match c r = None -> is_tag_char c = true ->
  tag_match c r = (t, rest) -> tokenize (S f) (String c r) = Tok "" t :: tokenize f rest.
Proof. intros H1 H2 H3. cbn [tokenize]. rewrite H1, H2, H3. reflexivity. Qed.

Lemma upto_uri x : upto "}" (cte_uri +++ "}" +++ x) = Some (cte_uri, x).
Proof. reflexivity. Qed.

Lemma tag_match_uri n : is_name n = true ->
  tag_match "{" (cte_uri +++ "}" +++ n) = (ns_tag n, EmptyString).
Proof.
  intros Hn. unfold tag_match. rewrite upto_uri. cbv beta iota.
  rewrite (span_tag_all n (is_name_tag n Hn)).
  destruct n as [|c r]; [discriminate|]. reflexivity.
Qed.

Lemma tokenize_url n : is_name n = true ->
  tokenize (String.length (URL +++ n)) (URL +++ n)
  = [Tok "." ""; Tok "//" ""; Tok "" (ns_tag n)].
Proof.
  intros Hn. rewrite length_app.
  change (URL +++ n) with
    (String "." (String "/" (String "/" (String "{" (cte_uri +++ "}" +++ n))))).
  change (String.length URL) with (S (S (S (S 35)))). cbn [Nat.add].
  set (u := String "{" (cte_uri +++ "}" +++ n)).
  rewrite (tokenize_op _ "." (String "/" (String "/" u)) "." (String "/" (String "/" u)) eq_refl).
  rewrite (tokenize_op _ "/" (String "/" u) "//" u eq_refl). subst u.
  rewrite (tokenize_tag _ "{" _ (ns_tag n) EmptyString eq_refl eq_refl (tag_match_uri n Hn)).
  rewrite tokenize_empty. reflexivity.
Qed.

(** ** Compiled paths *)

Lemma ns_tag_not_wildcard n : is_name n = true -> is_wildcard_tag (ns_tag n) = false.
Proof.
  intros Hn. unfold is_wildcard_tag, ns_tag. cbn [orb starts_with Ascii.eqb].
  change (starts_with "{*}" ("{" +++ cte_uri +++ "}" +++ n)) with false. cbn [orb].
  rewrite (ends_with_app "}*" "{" (cte_uri +++ "}" +++ n))
    by (rewrite !length_app; cbn; destruct n; [discriminate|cbn; lia]).
  rewrite (ends_with_app "}*" cte_uri ("}" +++ n))
    by (destruct n; [discriminate|cbn; lia]).
  apply (ends_with_name "}*" "*"); [reflexivity|].
  cbn [String.append contains_char]. rewrite (is_name_no "*" n Hn); [reflexivity|auto].
Qed.

Lemma strip_empty_ns_tag n : strip_empty_ns (ns_tag n) = ns_tag n.
Proof. reflexivity. Qed.

Lemma ns_tokens_url n :
  ns_tokens [] false [Tok "." ""; Tok "//" ""; Tok "" (ns_tag n)]
  = TCons (Tok "." "") (TCons (Tok "//" "") (TCons (Tok "" (ns_tag n)) TNil)).
Proof. reflexivity. Qed.

Lemma prepare_self r : prepare (Tok "." "") r = Ok (SSelf, r).
Proof. reflexivity. Qed.

Lemma prepare_desc T r : is_wildcard_tag T = false ->
  prepare (Tok "//" "") (TCons (Tok "" T) r) = Ok (SDesc (strip_empty_ns T), r).
Proof. intros H. unfold prepare. cbv beta iota. rewrite H. reflexivity. Qed.

Lemma compile_step f t rest st op' tag' r sts :
  prepare t rest = Ok (st, TCons (Tok op' tag') r) -> String.eqb op' "/" = false ->
  compile f (Tok op' tag') r = Ok sts -> compile (S f) t rest = Ok (st :: sts).
Proof. intros H1 H2 H3. cbn [compile]. rewrite H1. cbn [bind]. rewrite H2, H3. reflexivity. Qed.

Lemma compile_last f t rest st :
  prepare t rest = Ok (st, TNil) -> compile (S f) t rest = Ok [st].
Proof. intros H. cbn [compile]. rewrite H. reflexivity. Qed.

Lemma path_steps_url n : is_name n = true ->
  path_steps [] (URL +++ n) = Ok [SSelf; SDesc (ns_tag n)].
Proof.
  intros Hn. unfold path_steps. cbv zeta.
  assert (He : ends_with "/" (URL +++ n) = false).
  { rewrite ends_with_app by (destruct n; [discriminate|cbn; lia]).
    apply (ends_with_name "/" "/"); [reflexivity|]. apply is_name_no; auto. }
  rewrite He. cbv beta iota.
  change (starts_with "/" (URL +++ n)) with false. cbv beta iota.
  rewrite (tokenize_url n Hn), ns_tokens_url.
  rewrite length_app. change (String.length URL) with (S (S (S (S 35)))). cbn [Nat.add].
  apply (compile_step _ _ _ SSelf "//" "" (TCons (Tok "" (ns_tag n)) TNil));
    [reflexivity | reflexivity |].
  apply compile_last. rewrite (prepare_desc _ _ (ns_tag_not_wildcard n Hn)), strip_empty_ns_tag.
  reflexivity.
Qed.

Lemma run_url e n : run [SSelf; SDesc (ns_tag n)] [e] = desc_tagged (ns_tag n) e.
Proof. unfold run, desc_tagged. cbn [fold_left select flat_map]. apply app_nil_r. Qed.

Lemma checkpath_url n : checkpath (URL +++ n) = true.
Proof. reflexivity. Qed.

(** [node.find(f"{URL}{n}")] is the first CT-e element named [n] below the
    node, in document order; [findall] lists them all. *)
Lemma find_url e n : is_name n = true ->
  find e (URL +++ n) None = Ok (hd_error (desc_tagged (ns_tag n) e)).
Proof.
  intros Hn. unfold find. rewrite checkpath_url. unfold iterfind.
  rewrite (path_steps_url n Hn). cbn [bind]. rewrite run_url. reflexivity.
Qed.

Lemma findall_url e n : is_name n = true ->
  findall e (URL +++ n) None = Ok (desc_tagged (ns_tag n) e).
Proof.
  intros Hn. unfold findall. rewrite checkpath_url. unfold iterfind.
  rewrite (path_steps_url n Hn). cbn [bind]. rewrite run_url. reflexivity.
Qed.

(** A lookup through a path whose selectors are known. *)
Lemma find_steps e p sts : checkpath p = true -> path_steps [] p = Ok sts ->
  find e p None = Ok (hd_error (run sts [e])).
Proof. intros H1 H2. unfold find, iterfind. rewrite H1, H2. reflexivity. Qed.

Lemma find_ns_steps e p ns sts : path_steps ns p = Ok sts ->
  find e p (Some ns) = Ok (hd_error (run sts [e])).
Proof. intros H. unfold find, iterfind. rewrite H. reflexivity. Qed.

(** ** Tag names under a namespace map *)

Lemma contains_app a x y : contains_char a (x +++ y) = contains_char a x || contains_char a y.
Proof. induction x as [|c x IH]; simpl; [reflexivity|]. rewrite IH. apply orb_assoc. Qed.

Lemma split_first_spec c x : contains_char c x = true ->
  x = fst (split_first c x) +++ String c (snd (split_first c x)).
Proof.
  induction x as [|d x IH]; simpl; [discriminate|]. intros H.
  destruct (Ascii.eqb_spec c d) as [->|Hne]; [reflexivity|].
  destruct (split_first c x) as [a b] eqn:E. simpl in *. rewrite <- IH; [reflexivity|exact H].
Qed.

Lemma last_segment_app c p n : contains_char c n = false -> last_segment c (p +++ String c n) = n.
Proof.
  intros Hn. induction p as [|d p IH]; simpl.
  - rewrite Hn, Ascii.eqb_refl. reflexivity.
  - rewrite contains_app. cbn [contains_char]. rewrite Ascii.eqb_refl, orb_true_r. exact IH.
Qed.

Lemma prepare_child_ok tag : tag <> "{}*" ->
  exists st, prepare_child tag = Ok st /\ child_step st = true.
Proof.
  intros H. unfold prepare_child. destruct (is_wildcard_tag tag).
  - destruct (String.eqb_spec tag "{}*"); [contradiction|]. eauto.
  - eauto.
Qed.

Lemma braced_not_star u n : is_name n = true -> "{" +++ u +++ "}" +++ n <> "{}*".
Proof.
  intros Hn E. destruct u as [|a u].
  - cbn in E. injection E as E. subst n. discriminate Hn.
  - apply (f_equal String.length) in E. cbn [String.append String.length] in E.
    rewrite length_app in E. cbn [String.length String.append] in E.
    destruct n; [discriminate|]. cbn [String.length] in E. lia.
Qed.

Lemma name_not_braced c r : name_char c = true -> String c r <> "{}*".
Proof.
  intros Hc E. injection E as -> _. discriminate Hc.
Qed.

Lemma compile_child f tag :
  tag <> "{}*" -> exists st, compile (S f) (Tok "" tag) TNil = Ok [st] /\ child_step st = true.
Proof.
  intros H. destruct (prepare_child_ok tag H) as [st [E Hs]]. exists st. split; [|exact Hs].
  apply compile_last. unfold prepare. cbv beta iota. rewrite E. reflexivity.
Qed.

Lemma starts_slash_name c r : name_char c = true -> starts_with "/" (String c r) = false.
Proof.
  intros Hc. destruct (name_char_facts c Hc) as (_ & _ & _ & _ & _ & H & _).
  cbn [starts_with]. rewrite Ascii.eqb_sym, H. reflexivity.
Qed.

(** The path of a tag name compiles to one step among the children. *)
Lemma path_steps_tag_name ns x : is_tag_name ns x = true ->
  exists st, path_steps ns x = Ok [st] /\ child_step st = true.
Proof.
  unfold is_tag_name. intros H. apply orb_prop in H as [Hn|Hq].
  - destruct x as [|c r]; [discriminate|].
    pose proof Hn as Hn'. cbn [is_name] in Hn'. apply andb_prop in Hn' as [Hc Hr].
    destruct (name_char_facts c Hc) as (Ht & _ & _ & Hb & _).
    unfold path_steps. cbv zeta.
    rewrite (ends_with_name "/" "/" (String c r) eq_refl (is_name_no "/" _ Hn ltac:(auto))).
    cbv beta iota. rewrite (starts_slash_name c r Hc). cbv beta iota.
    cbn [String.length]. rewrite tokenize_plain;
      [| exact Hc | exact (all_chars_impl _ _ r name_tail_char_tag Hr)].
    cbn [ns_tokens]. change (String.eqb (String c r) "") with false.
    cbn [starts_with]. rewrite Ascii.eqb_sym, Hb.
    rewrite (is_name_no ":" _ Hn ltac:(auto)). cbn [negb andb].
    destruct (assoc_get "" ns) as [d|].
    + match goal with |- context [if ?b then _ else _] => destruct b end.
      * apply compile_child, braced_not_star, Hn.
      * apply compile_child, (name_not_braced c r Hc).
    + apply compile_child, (name_not_braced c r Hc).
  - apply andb_prop in Hq as [Hcol Hq].
    destruct (split_first ":" x) as [p n] eqn:Hs.
    apply andb_prop in Hq as [Hq Hu]. apply andb_prop in Hq as [Hp Hn].
    destruct (assoc_get p ns) as [u|] eqn:Hup; [|discriminate].
    pose proof (split_first_spec ":" x Hcol) as Hx. rewrite Hs in Hx. cbn [fst snd] in Hx.
    destruct p as [|c r]; [discriminate|].
    pose proof Hp as Hp'. cbn [is_name] in Hp'. apply andb_prop in Hp' as [Hc Hr].
    destruct (name_char_facts c Hc) as (Ht & _ & _ & Hb & _).
    unfold path_steps. cbv zeta.
    assert (Hsl : contains_char "/" x = false).
    { rewrite Hx, contains_app, (is_name_no "/" _ Hp ltac:(auto)). cbn [contains_char orb].
      rewrite (is_name_no "/" _ Hn ltac:(auto)). reflexivity. }
    rewrite (ends_with_name "/" "/" x eq_refl Hsl). cbv beta iota.
    rewrite Hx. cbn [String.append]. rewrite (starts_slash_name c _ Hc). cbv beta iota.
    cbn [String.length]. rewrite tokenize_plain; [|exact Hc|].
    2:{ rewrite all_chars_app. cbn [all_chars].
        rewrite (all_chars_impl _ _ r name_tail_char_tag Hr), (is_name_tag n Hn). reflexivity. }
    cbn [ns_tokens]. change (String.eqb (String c (r +++ String ":" n)) "") with false.
    cbn [starts_with]. rewrite Ascii.eqb_sym, Hb. cbn [negb andb].
    change (String c (r +++ String ":" n)) with (String c r +++ String ":" n).
    rewrite <- Hx, Hcol, Hs.
    destruct ns as [|kv ns']; [discriminate|]. rewrite Hup.
    apply compile_child, braced_not_star, Hn.
Qed.

Lemma unprefixed_name ns x : is_tag_name ns x = true -> is_name (unprefixed x) = true.
Proof.
  unfold is_tag_name, unprefixed. intros H. apply orb_prop in H as [Hn|Hq].
  - rewrite (is_name_no ":" _ Hn ltac:(auto)). exact Hn.
  - apply andb_prop in Hq as [Hcol Hq]. rewrite Hcol.
    destruct (split_first ":" x) as [p n] eqn:Hs.
    apply andb_prop in Hq as [Hq _]. apply andb_prop in Hq as [_ Hn].
    pose proof (split_first_spec ":" x Hcol) as Hx. rewrite Hs in Hx. cbn [fst snd] in Hx.
    rewrite Hx, last_segment_app; [exact Hn|]. apply is_name_no; auto.
Qed.

(** ** [find_text] *)

Lemma strip_empty : strip "" = "".
Proof. reflexivity. Qed.

(** The fallback, whatever the helper finds, is the stripped text. *)
Lemma fallback_strip (t : string) :
  (if negb (String.eqb t "") then Ok (strip t) else Ok "") = Ok (strip t).
Proof. destruct (String.eqb_spec t ""); subst; reflexivity. Qed.

(** The text [get_tag_text] reads from the first match of a lookup. *)
Definition text_of (o : option element) : string :=
  match o with
  | Some c => match el_text c with Some t => t | None => "" end
  | None => ""
  end.

Lemma get_tag_text_url el n : is_name n = true ->
  get_tag_text el URL n = Ok (text_of (hd_error (desc_tagged (ns_tag n) el))).
Proof. intros Hn. unfold get_tag_text. rewrite (find_url el n Hn). reflexivity. Qed.

Lemma find_text_ns_eq el x namespace st :
  path_steps (ns_of namespace) x = Ok [st] -> is_name (unprefixed x) = true ->
  find_text_ns (Some el) x namespace =
  match match hd_error (select st [el]) with Some f => el_text f | None => None end with
  | Some t => Ok (strip t)
  | None => Ok (strip (text_of (hd_error (desc_tagged (ns_tag (unprefixed x)) el))))
  end.
Proof.
  intros Hp Hu. unfold find_text_ns.
  change (match namespace with Some n => n | None => default_namespace end) with (ns_of namespace).
  rewrite (find_ns_steps el x _ _ Hp). cbn [bind].
  change (run [st] [el]) with (select st [el]).
  destruct (match hd_error (select st [el]) with Some f => el_text f | None => None end);
    [reflexivity|].
  cbv zeta. change (if contains_char ":" x then last_segment ":" x else x) with (unprefixed x).
  rewrite (get_tag_text_url el _ Hu). cbn [bind]. apply fallback_strip.
Qed.

Lemma find_text_ns_ok e x namespace :
  is_tag_name (ns_of namespace) x = true -> exists r, find_text_ns e x namespace = Ok r.
Proof.
  intros Hb. destruct e as [el|]; [|exists ""; reflexivity].
  destruct (path_steps_tag_name _ _ Hb) as [st [Hst _]].
  rewrite (find_text_ns_eq el x namespace st Hst (unprefixed_name _ _ Hb)).
  destruct (match hd_error (select st [el]) with Some f => el_text f | None => None end); eauto.
Qed.

Lemma find_text_ok e xpath :
  is_tag_name default_namespace xpath = true -> exists r, find_text e xpath = Ok r.
Proof. exact (find_text_ns_ok e xpath None). Qed.

(** Rewrites the [find_text] calls on the code's tag names to their [Ok]
    value. *)
Ltac ft_ok :=
  repeat match goal with
  | |- context [find_text ?e ?x] =>
      let r := fresh "r" in let H := fresh "Hft" in
      destruct (find_text_ok e x eq_refl) as [r H]; rewrite H; cbn [bind]
  end.

Lemma descendants_childless el : el_children el = [] -> descendants el = [].
Proof. destruct el as [t a x cs]. cbn [el_children]. intros ->. reflexivity. Qed.

Lemma select_child_childless st el :
  child_step st = true -> el_children el = [] -> select st [el] = [].
Proof.
  intros Hs Hc. destruct st; try discriminate; cbn [select flat_map]; rewrite Hc; reflexivity.
Qed.

(** An element with no children yields the empty string. *)
Lemma find_text_childless el xpath :
  el_children el = [] -> is_tag_name default_namespace xpath = true ->
  find_text (Some el) xpath = Ok "".
Proof.
  intros Hc Hb. destruct (path_steps_tag_name _ _ Hb) as [st [Hst Hs]].
  unfold find_text. rewrite (find_text_ns_eq el xpath None st Hst (unprefixed_name _ _ Hb)).
  rewrite (select_child_childless st el Hs Hc). unfold desc_tagged.
  rewrite (descendants_childless el Hc). reflexivity.
Qed.

(** C7: for an element (or [None]) and a tag name, bare or qualified with a
    prefix of the namespace map, [find_text] never raises; it returns the
    stripped text of the node the namespaced lookup finds, otherwise the
    stripped text the fallback lookup [get_tag_text(element, URL, name)]
    reads for the unprefixed name, and the empty string when the element is
    [None] or neither lookup finds a node with text. *)
Theorem find_text_contract (element : option element) (xpath : string)
    (namespace : option (list (string * string)))
    (Hb : is_tag_name (ns_of namespace) xpath = true) :
  (exists r, find_text_ns element xpath namespace = Ok r)
  /\ (element = None -> find_text_ns element xpath namespace = Ok "")
  /\ (forall el found t,
        element = Some el -> find el xpath (Some (ns_of namespace)) = Ok (Some found) ->
        el_text found = Some t ->
        find_text_ns element xpath namespace = Ok (strip t))
  /\ (forall el,
        element = Some el ->
        (forall found, find el xpath (Some (ns_of namespace)) = Ok (Some found) ->
                       el_text found = None) ->
        exists g, get_tag_text el URL (unprefixed xpath) = Ok g
                  /\ find_text_ns element xpath namespace = Ok (strip g))
  /\ (forall el,
        element = Some el ->
        (forall found, find el xpath (Some (ns_of namespace)) = Ok (Some found) ->
                       el_text found = None) ->
        (forall c, find el (URL +++ unprefixed xpath) None = Ok (Some c) -> el_text c = None) ->
        find_text_ns element xpath namespace = Ok "").
Proof.
  destruct (path_steps_tag_name _ _ Hb) as [st [Hst _]].
  pose proof (unprefixed_name _ _ Hb) as Hu.
  assert (HF : forall el, find el xpath (Some (ns_of namespace)) = Ok (hd_error (select st [el])))
    by (intros el; exact (find_ns_steps el xpath _ _ Hst)).
  assert (Hfb : forall el,
        element = Some el ->
        (forall found, find el xpath (Some (ns_of namespace)) = Ok (Some found) ->
                       el_text found = None) ->
        exists g, get_tag_text el URL (unprefixed xpath) = Ok g
                  /\ find_text_ns element xpath namespace = Ok (strip g)).
  { intros el -> Hnone. eexists. split; [exact (get_tag_text_url el _ Hu)|].
    rewrite (find_text_ns_eq el xpath namespace st Hst Hu).
    destruct (hd_error (select st [el])) as [f|] eqn:E; [|reflexivity].
    rewrite (Hnone f); [reflexivity|]. rewrite HF, E. reflexivity. }
  split; [|split; [|split; [|split]]].
  - exact (find_text_ns_ok element xpath namespace Hb).
  - intros ->. reflexivity.
  - intros el found t -> Hf Ht. rewrite (find_text_ns_eq el xpath namespace st Hst Hu).
    rewrite HF in Hf. injection Hf as Hf. rewrite Hf, Ht. reflexivity.
  - exact Hfb.
  - intros el He Hnone Hnone2. destruct (Hfb el He Hnone) as [g [Hg ->]].
    rewrite (get_tag_text_url el _ Hu) in Hg. injection Hg as <-.
    destruct (hd_error (desc_tagged (ns_tag (unprefixed xpath)) el)) as [c|] eqn:E;
      [|reflexivity].
    cbn [text_of]. rewrite (Hnone2 c); [reflexivity|].
    rewrite (find_url el _ Hu), E. reflexivity.
Qed.

Lemma find_text_contract_witness :
  is_tag_name (ns_of None) "cte:nProt" = true
  /\ ((exists r, find_text_ns (Some sample_inf_prot) "cte:nProt" None = Ok r)
      /\ (Some sample_inf_prot = None ->
          find_text_ns (Some sample_inf_prot) "cte:nProt" None = Ok "")
      /\ (forall el found t,
            Some sample_inf_prot = Some el ->
            find el "cte:nProt" (Some (ns_of None)) = Ok (Some found) ->
            el_text found = Some t ->
            find_text_ns (Some sample_inf_prot) "cte:nProt" None = Ok (strip t))
      /\ (forall el,
            Some sample_inf_prot = Some el ->
            (forall found, find el "cte:nProt" (Some (ns_of None)) = Ok (Some found) ->
                           el_text found = None) ->
            exists g, get_tag_text el URL (unprefixed "cte:nProt") = Ok g
                      /\ find_text_ns (Some sample_inf_prot) "cte:nProt" None = Ok (strip g))
      /\ (forall el,
            Some sample_inf_prot = Some el ->
            (forall found, find el "cte:nProt" (Some (ns_of None)) = Ok (Some found) ->
                           el_text found = None) ->
            (forall c, find el (URL +++ unprefixed "cte:nProt") None = Ok (Some c) ->
                       el_text c = None) ->
            find_text_ns (Some sample_inf_prot) "cte:nProt" None = Ok "")).
Proof.
  split; [reflexivity|].
  apply (find_text_contract (Some sample_inf_prot) "cte:nProt" None). reflexivity.
Defined.

(** C8: a 44-character access key is displayed as 11 groups of 4
    characters of the key, in order, separated by a single space. *)
Theorem format_key_44 (key : string) (Hlen : String.length key = 44%nat) :
  exists groups : list string,
    List.length groups = 11%nat
    /\ Forall (fun g => String.length g = 4%nat) groups
    /\ String.concat "" groups = key
    /\ format_key key = String.concat " " groups.
Proof.
  exists (chunks 4 (String.length key) key). unfold format_key.
  do 44 (destruct key as [|? key]; [discriminate|]).
  destruct key; [|discriminate].
  split; [reflexivity|]. split.
  - simpl. repeat constructor.
  - split; reflexivity.
Qed.

(** The key the header shows is the [Id] attribute with every [CTe]
    removed; for the sample it is the 44-digit key. *)
Lemma format_key_44_witness :
  String.length (py_replace ("CTe" +++ sample_key) "CTe" "") = 44%nat
  /\ exists groups : list string,
       List.length groups = 11%nat
       /\ Forall (fun g => String.length g = 4%nat) groups
       /\ String.concat "" groups = py_replace ("CTe" +++ sample_key) "CTe" ""
       /\ format_key (py_replace ("CTe" +++ sample_key) "CTe" "") = String.concat " " groups.
Proof.
  split; [reflexivity|].
  apply format_key_44. reflexivity.
Defined.


Lemma digit_val_dv c : is_digit c = true -> digit_val c = Some (dv c).
Proof. unfold is_digit, dv. destruct (digit_val c) eqn:E; [|discriminate].
  unfold digit_val in *. destruct (Nat.leb 48 _ && Nat.leb _ 57); congruence. Qed.

Lemma dv_range c : is_digit c = true -> (0 <= dv c <= 9)%Z.
Proof.
  unfold is_digit, dv, digit_val. intros H.
  destruct (Nat.leb 48 (nat_of_ascii c)) eqn:E1; [|discriminate].
  destruct (Nat.leb (nat_of_ascii c) 57) eqn:E2; [|discriminate].
  apply Nat.leb_le in E1. apply Nat.leb_le in E2. lia.
Qed.

Lemma digit_char_dv c : is_digit c = true -> digit_char (dv c) = c.
Proof.
  unfold is_digit, dv, digit_val, digit_char. intros H.
  destruct (Nat.leb 48 (nat_of_ascii c)) eqn:E1; [|discriminate].
  apply Nat.leb_le in E1.
  replace (Z.to_nat (Z.of_nat (nat_of_ascii c) - 48) + 48)%nat with (nat_of_ascii c) by lia.
  apply ascii_nat_embedding.
Qed.

Lemma digit_not_space c : is_digit c = true -> is_space c = false.
Proof.
  unfold is_digit, digit_val, is_space. intros H.
  destruct (Nat.leb 48 (nat_of_ascii c)) eqn:E1; [|discriminate].
  apply Nat.leb_le in E1.
  destruct (Nat.leb 9 (nat_of_ascii c)), (Nat.leb (nat_of_ascii c) 13) eqn:E2;
  destruct (Nat.leb 28 (nat_of_ascii c)), (Nat.leb (nat_of_ascii c) 32) eqn:E3;
  simpl; auto; first [apply Nat.leb_le in E2 | apply Nat.leb_le in E3]; lia.
Qed.

Lemma digit_neq c d : is_digit c = true -> is_digit d = false -> Ascii.eqb d c = false.
Proof. intros Hc Hd. destruct (Ascii.eqb_spec d c); congruence. Qed.

Lemma digit_neq_r c d : is_digit c = true -> is_digit d = false -> Ascii.eqb c d = false.
Proof. intros Hc Hd. destruct (Ascii.eqb_spec c d); congruence. Qed.

Lemma dval_acc s acc : dval s acc = (acc * 10 ^ Z.of_nat (String.length s) + dval s 0)%Z.
Proof.
  revert acc. induction s as [|c s IH]; intros acc; cbn [dval String.length].
  - lia.
  - rewrite (IH (acc * 10 + dv c)%Z), (IH (0 * 10 + dv c)%Z).
    rewrite Nat2Z.inj_succ, Z.pow_succ_r by lia. ring.
Qed.

Lemma dval_bound s : all_digits s = true ->
  (0 <= dval s 0 < 10 ^ Z.of_nat (String.length s))%Z.
Proof.
  induction s as [|c s IH]; cbn [dval String.length all_digits]; intros H; [lia|].
  apply andb_true_iff in H as [Hc Hs]. specialize (IH Hs).
  rewrite dval_acc. pose proof (dv_range c Hc).
  rewrite Nat2Z.inj_succ, Z.pow_succ_r by lia. nia.
Qed.

Lemma parse_digits_true s acc : all_digits s = true ->
  parse_digits s acc true = Some (dval s acc).
Proof.
  revert acc. induction s as [|c s IH]; intros acc H; simpl; [reflexivity|].
  apply andb_true_iff in H as [Hc Hs].
  rewrite (digit_val_dv c Hc). apply IH, Hs.
Qed.

Lemma rstrip_digits s : all_digits s = true -> rstrip s = s.
Proof.
  induction s as [|c s IH]; simpl; intros H; [reflexivity|].
  apply andb_true_iff in H as [Hc Hs]. rewrite (IH Hs).
  destruct s; [rewrite (digit_not_space c Hc)|]; reflexivity.
Qed.

Lemma py_int_digits s : all_digits s = true -> s <> "" -> py_int s = Ok (dval s 0).
Proof.
  intros H Hne. destruct s as [|c s']; [congruence|].
  unfold py_int, strip.
  simpl in H. apply andb_true_iff in H as [Hc Hs].
  cbn [lstrip]. rewrite (digit_not_space c Hc).
  rewrite (rstrip_digits (String c s')) by (simpl; rewrite Hc, Hs; reflexivity).
  rewrite (digit_neq_r c "-" Hc eq_refl), (digit_neq_r c "+" Hc eq_refl).
  cbn [parse_digits]. rewrite (digit_val_dv c Hc), parse_digits_true by exact Hs.
  reflexivity.
Qed.

Lemma digits_fixed_shift k a b :
  (0 <= a)%Z -> (0 <= b < 10 ^ Z.of_nat k)%Z ->
  digits_fixed k (a * 10 ^ Z.of_nat k + b)%Z = digits_fixed k b.
Proof.
  revert a b. induction k as [|k IH]; intros a b Ha Hb; [reflexivity|].
  cbn [digits_fixed].
  assert (Hp : (0 < 10 ^ Z.of_nat k)%Z) by (apply Z.pow_pos_nonneg; lia).
  rewrite Nat2Z.inj_succ, Z.pow_succ_r in * by lia.
  set (p := (10 ^ Z.of_nat k)%Z) in *.
  pose proof (Z.div_mod b p ltac:(lia)) as Hdm.
  pose proof (Z.mod_pos_bound b p Hp) as Hmb.
  assert (Hq : (0 <= b / p < 10)%Z).
  { split; [apply Z.div_pos; lia|]. apply Z.div_lt_upper_bound; lia. }
  set (q := (b / p)%Z) in *. set (r := (b mod p)%Z) in *.
  assert (E1 : (a * (10 * p) + b = (a * 10 + q) * p + r)%Z) by lia.
  rewrite E1, Hdm.
  rewrite Z.div_add_l by lia. rewrite (Z.div_small r p) by lia. rewrite Z.add_0_r.
  rewrite (IH (a * 10 + q)%Z r) by lia. rewrite (Z.mul_comm p q), (IH q r) by lia.
  f_equal. f_equal. rewrite Z.add_comm, Z.mod_add by lia. reflexivity.
Qed.

Lemma digits_fixed_dval s : all_digits s = true ->
  digits_fixed (String.length s) (dval s 0) = s.
Proof.
  induction s as [|c s IH]; cbn [dval String.length all_digits]; intros H; [reflexivity|].
  apply andb_true_iff in H as [Hc Hs].
  rewrite dval_acc. pose proof (dval_bound s Hs). pose proof (dv_range c Hc).
  replace ((0 * 10 + dv c) * 10 ^ Z.of_nat (String.length s) + dval s 0)%Z
    with (dv c * 10 ^ Z.of_nat (String.length s) + dval s 0)%Z by ring.
  cbn [digits_fixed].
  rewrite digits_fixed_shift by lia. rewrite (IH Hs).
  f_equal. rewrite Z.div_add_l by (apply Z.pow_nonzero; lia).
  rewrite Z.div_small by lia. rewrite Z.add_0_r, Z.mod_small by lia.
  apply digit_char_dv, Hc.
Qed.

Lemma ndigits_aux_bound k fuel n :
  (0 <= n < 10 ^ Z.of_nat (S k))%Z -> (ndigits_aux fuel n <= S k)%nat.
Proof.
  revert fuel n. induction k as [|k IH]; intros fuel n Hn; destruct fuel as [|f]; simpl; try lia.
  - destruct (n <? 10)%Z eqn:E; [lia|]. apply Z.ltb_ge in E. simpl in Hn. lia.
  - destruct (n <? 10)%Z; [lia|]. apply le_n_S, IH.
    split; [apply Z.div_pos; lia|].
    apply Z.div_lt_upper_bound; [lia|].
    rewrite (Nat2Z.inj_succ (S k)), Z.pow_succ_r in Hn by lia. lia.
Qed.

Lemma substring_0_long n s : (String.length s <= n)%nat -> substring 0 n s = s.
Proof.
  revert n. induction s as [|c s IH]; intros n Hn; destruct n as [|n]; simpl in *;
    try reflexivity; try lia.
  rewrite IH by lia. reflexivity.
Qed.

Lemma replace_single fuel c new s : (String.length s <= fuel)%nat ->
  replace_aux fuel (String c EmptyString) new s = map_replace c new s.
Proof.
  revert s. induction fuel as [|f IH]; intros s Hl.
  - destruct s; [reflexivity | simpl in Hl; lia].
  - destruct s as [|d s']; [reflexivity|]. simpl in Hl.
    cbn [replace_aux starts_with map_replace String.length substring].
    rewrite andb_true_r, substring_0_long by lia.
    rewrite IH by lia. destruct (Ascii.eqb c d); reflexivity.
Qed.

Lemma needed_digits_11 : needed_digits 11 = 9%nat.
Proof. reflexivity. Qed.

(** Nine digits, formatted with [:011,] and dots: the digits themselves in
    three groups of three. *)
Lemma format_nine s : String.length s = 9%nat -> all_digits s = true ->
  py_replace (format_zero_grouped 11 (dval s 0)) "," "."
  = substring 0 3 s +++ "." +++ substring 3 3 s +++ "." +++ substring 6 3 s.
Proof.
  intros Hlen Hd. pose proof (dval_bound s Hd) as Hb. rewrite Hlen in Hb.
  unfold format_zero_grouped.
  replace (dval s 0 <? 0)%Z with false by (symmetry; apply Z.ltb_ge; lia).
  rewrite Z.abs_eq by lia. cbn [String.length Nat.sub]. rewrite needed_digits_11.
  rewrite Nat.max_r by (apply (ndigits_aux_bound 8); exact Hb).
  rewrite <- Hlen at 1. rewrite digits_fixed_dval by exact Hd.
  cbn [String.append]. unfold py_replace. rewrite replace_single by lia.
  do 9 (destruct s as [|? s]; [discriminate|]). destruct s; [|discriminate].
  simpl in Hd. repeat rewrite andb_true_iff in Hd.
  destruct Hd as (H1 & H2 & H3 & H4 & H5 & H6 & H7 & H8 & H9 & _).
  cbn -[Ascii.eqb].
  rewrite (digit_neq _ "," H1), (digit_neq _ "," H2), (digit_neq _ "," H3),
    (digit_neq _ "," H4), (digit_neq _ "," H5), (digit_neq _ "," H6),
    (digit_neq _ "," H7), (digit_neq _ "," H8), (digit_neq _ "," H9) by reflexivity.
  reflexivity.
Qed.

(** C5 (corrected): for a 44-character key whose characters 25..33 are
    digits, the row drawn for it shows the series as the three characters at
    position 22 and the sequence number as the nine characters at position 25,
    in three groups of three separated by '.': eleven characters holding nine
    digits, not eleven digits. *)
Theorem document_row_series_number (chave : string)
  (Hlen : String.length chave = 44%nat)
  (Hd : all_digits (substring 25 9 chave) = true) :
  serie_doc chave = substring 22 3 chave /\
  document_row chave =
    Ok [Cell "NFE"; Cell chave;
        Cell (substring 22 3 chave +++ "/" +++ substring 25 3 chave +++ "."
              +++ substring 28 3 chave +++ "." +++ substring 31 3 chave)].
Proof.
  unfold document_row, formatted_nro_doc, serie_doc, py_slice.
  change (25 - 22)%nat with 3%nat. change (34 - 25)%nat with 9%nat.
  assert (Hl9 : String.length (substring 25 9 chave) = 9%nat).
  { do 44 (destruct chave as [|? chave]; [discriminate|]). reflexivity. }
  rewrite (py_int_digits _ Hd) by (intro E; rewrite E in Hl9; discriminate).
  cbn [bind]. rewrite (format_nine _ Hl9 Hd). split; [reflexivity|].
  do 44 (destruct chave as [|? chave]; [discriminate|]). reflexivity.
Qed.

Lemma document_row_series_number_witness :
  String.length sample_nfe = 44%nat /\
  all_digits (substring 25 9 sample_nfe) = true /\
  serie_doc sample_nfe = substring 22 3 sample_nfe /\
  document_row sample_nfe =
    Ok [Cell "NFE"; Cell sample_nfe;
        Cell (substring 22 3 sample_nfe +++ "/" +++ substring 25 3 sample_nfe +++ "."
              +++ substring 28 3 sample_nfe +++ "." +++ substring 31 3 sample_nfe)].
Proof.
  split; [reflexivity|]. split; [reflexivity|].
  apply (document_row_series_number sample_nfe); reflexivity.
Defined.

(** C5, counterexample to "zero-padded to 11 digits": the sample key's
    sequence number 000045678 is shown as 000.045.678, eleven characters of
    which only nine are digits; eleven digits would read 00.000.045.678. *)
Lemma formatted_nro_doc_nine_digits :
  formatted_nro_doc sample_nfe = Ok "000.045.678" /\
  String.length (digits_only "000.045.678") = 9%nat /\
  String.length "000.045.678" = 11%nat.
Proof. vm_compute. repeat split. Qed.

(** ** The watermark *)

Lemma no_rot_text p t : forallb is_cell p = true -> ~ In (RotText t) p.
Proof.
  induction p as [|op p IH]; simpl; [tauto|].
  intros H [E|Hin]; apply andb_true_iff in H; destruct H as [H1 H2].
  - subst. discriminate.
  - exact (IH H2 Hin).
Qed.

Lemma document_rows_cells l rows :
  mapM document_row l = Ok rows -> forallb is_cell (concat rows) = true.
Proof.
  revert rows. induction l as [|c l IH]; simpl; intros rows H.
  - injection H as <-. reflexivity.
  - inv_binds. unfold document_row in Ha. inv_binds.
    simpl. apply IH. assumption.
Qed.

Lemma flat_map_cells {A} (f : A -> page) l :
  (forall x, forallb is_cell (f x) = true) -> forallb is_cell (flat_map f l) = true.
Proof.
  intros Hf. induction l as [|x l IH]; [reflexivity|].
  simpl. rewrite forallb_app, Hf, IH. reflexivity.
Qed.

(** Every phase before the watermark draws cells only. *)
Lemma render_split u v pg :
  render u v = Ok pg ->
  exists pre p9, pg = pre ++ p9 /\ forallb is_cell pre = true
                 /\ draw_void_watermark_conditional v = Ok p9.
Proof.
  unfold render. intros H. inv_binds.
  exists (a ++ a0 ++ a1 ++ a2 ++ a3 ++ a4 ++ a5 ++ a6), a7.
  split; [rewrite <- !app_assoc; reflexivity|]. split; [|assumption].
  unfold draw_receipt_section, draw_percurso_and_cfop, draw_tomador_section,
    draw_footer_declaration in *.
  unfold draw_header_section in Ha0. inv_binds.
  unfold draw_service_info_and_values in Ha3. inv_binds.
  unfold draw_documents_and_observations in Ha4. inv_binds.
  unfold draw_modal_specific_data_rodo_os in Ha5. inv_binds.
  set (cs := flat_map _ _) in *.
  assert (Hcs : forallb is_cell cs = true)
    by (apply flat_map_cells; intros [? ?]; reflexivity).
  clearbody cs.
  pose proof (document_rows_cells _ _ Ha1) as Hrows.
  repeat match goal with H : Ok _ = Ok _ |- _ => injection H as <- end.
  repeat rewrite forallb_app. simpl. rewrite forallb_app, Hcs, Hrows. reflexivity.
Qed.

(** A protocol block the usage protocol accepts has children: a childless
    one reads [dhRecbto] as the empty string, which does not parse. *)
Lemma usage_protocol_truthy o s :
  get_usage_protocol o = Ok s -> py_truthy o = match o with Some _ => true | None => false end.
Proof.
  destruct o as [p|]; [|reflexivity]. unfold get_usage_protocol. intros H.
  cbn [py_truthy]. unfold el_bool. destruct (el_children p) eqn:Hc; [|reflexivity].
  rewrite (find_text_childless p "dhRecbto" Hc eq_refl) in H. discriminate.
Qed.

Lemma extract_ident_protocol u nd i :
  extract_ident u nd = Ok i -> exists s, get_usage_protocol (inf_prot nd) = Ok s.
Proof. unfold extract_ident. intros H. inv_binds. eauto. Qed.

(** C1: whenever construction succeeds, the page carries the rotated
    "SEM VALOR FISCAL" text exactly when it is not the case that [tpAmb] is
    "1" and the [infProt] block is present; construction itself reads the
    nodes from the input. *)
Theorem void_watermark_iff (u : utils) (cfg : config) (root : element)
    (v : view) (pg : page) (H : dacteos u cfg root = Ok (v, pg)) :
  parse_nodes root = Ok (v_nodes v) /\
  exists tpAmb : string,
    find_text (ide (v_nodes v)) "tpAmb" = Ok tpAmb /\
    (In (RotText watermark_text) pg <->
     ~ (tpAmb = "1" /\ inf_prot (v_nodes v) <> None)).
Proof.
  unfold dacteos, extract_view in H. inv_binds.
  match goal with Hr : render _ _ = Ok _ |- _ =>
    apply render_split in Hr; destruct Hr as (pre & p9 & -> & Hpre & Hw) end.
  split; [assumption|]. cbn [v_nodes] in *.
  match goal with Hp : parse_nodes root = Ok ?n |- _ => rename n into nd end.
  match goal with Hi : extract_ident _ _ = Ok _ |- _ =>
    destruct (extract_ident_protocol _ _ _ Hi) as [s Hs] end.
  pose proof (usage_protocol_truthy _ _ Hs) as Ht.
  unfold draw_void_watermark_conditional in Hw. cbn [v_nodes] in Hw.
  destruct (find_text_ok (ide nd) "tpAmb" eq_refl) as [tp Htp].
  rewrite Htp in Hw. cbn [bind] in Hw. exists tp. split; [exact Htp|].
  rewrite Ht in Hw.
  assert (Hr : In (RotText watermark_text) (pre ++ p9) <-> In (RotText watermark_text) p9).
  { rewrite in_app_iff. pose proof (no_rot_text pre watermark_text Hpre). tauto. }
  rewrite Hr.
  destruct (String.eqb_spec tp "1"), (inf_prot nd); simpl in Hw;
    injection Hw as <-; simpl; intuition congruence.
Qed.

Lemma void_watermark_iff_witness :
  exists v pg, dacteos plain_utils plain_config (sample_doc "1") = Ok (v, pg) /\
  (parse_nodes (sample_doc "1") = Ok (v_nodes v) /\
   exists tpAmb : string,
     find_text (ide (v_nodes v)) "tpAmb" = Ok tpAmb /\
     (In (RotText watermark_text) pg <->
      ~ (tpAmb = "1" /\ inf_prot (v_nodes v) <> None))).
Proof.
  destruct (dacteos plain_utils plain_config (sample_doc "1")) as [[v pg]|e] eqn:E.
  - exists v, pg. split; [reflexivity|].
    apply (void_watermark_iff plain_utils plain_config (sample_doc "1") v pg E).
  - vm_compute in E. discriminate.
Defined.

(** ** Referenced documents *)

Lemma collect_chaves_in l cs n c :
  collect_chaves l = Ok cs -> In n l -> find_text (Some n) "chave" = Ok c ->
  c <> "" -> In c cs.
Proof.
  revert cs. induction l as [|m l IH]; simpl; intros cs H Hin Hc Hne; [contradiction|].
  inv_binds. destruct Hin as [<-|Hin].
  - rewrite Hc in Ha. injection Ha as <-.
    destruct (String.eqb_spec c ""); [contradiction|]. left. reflexivity.
  - destruct (String.eqb a ""); [|right]; exact (IH _ Ha0 Hin Hc Hne).
Qed.

Lemma document_rows_shape l rows :
  mapM document_row l = Ok rows ->
  Forall2 (fun c row => exists f, row = [Cell "NFE"; Cell c; Cell f]) l rows.
Proof.
  revert rows. induction l as [|c l IH]; simpl; intros rows H.
  - injection H as <-. constructor.
  - inv_binds. constructor; [|apply IH; assumption].
    unfold document_row in Ha. inv_binds. eauto.
Qed.

Lemma render_documents u v pg :
  render u v = Ok pg ->
  exists pre post rows, pg = pre ++ concat rows ++ post
    /\ mapM document_row (inf_doc_list v) = Ok rows.
Proof.
  unfold render. intros H. inv_binds.
  unfold draw_documents_and_observations in Ha4. inv_binds.
  exists (a ++ a0 ++ a1 ++ a2 ++ a3), ([Cell (combined_obs v)] ++ a5 ++ a6 ++ a7), a8.
  split; [rewrite <- !app_assoc; reflexivity | assumption].
Qed.

(** C10: on a successful construction, the referenced-documents table has
    one row per collected key, in order, and every row is labelled "NFE";
    the collected keys include the non-empty [chave] of every [infCTe]
    reference. *)
Theorem document_rows_labelled_nfe (u : utils) (cfg : config) (root : element)
    (v : view) (pg : page) (H : dacteos u cfg root = Ok (v, pg)) :
  (exists pre post rows,
     pg = pre ++ concat rows ++ post /\
     Forall2 (fun c row => exists f, row = [Cell "NFE"; Cell c; Cell f])
             (inf_doc_list v) rows)
  /\ (forall d ctes n c, inf_doc (v_nodes v) = Some d ->
        findall d (URL +++ "infCTe") None = Ok ctes -> In n ctes ->
        find_text (Some n) "chave" = Ok c -> c <> "" ->
        In c (inf_doc_list v)).
Proof.
  unfold dacteos, extract_view in H. inv_binds.
  split.
  - match goal with Hr : render _ _ = Ok _ |- _ =>
      destruct (render_documents _ _ _ Hr) as (pre & post & rows & -> & Hrows) end.
    exists pre, post, rows. split; [reflexivity|]. apply document_rows_shape. exact Hrows.
  - intros d ctes n c Hd Hct Hin Hc Hne. cbn [v_nodes inf_doc_list] in *.
    match goal with Hx : extract_inf_doc _ = Ok _ |- _ =>
      rewrite Hd in Hx; unfold extract_inf_doc in Hx; inv_binds end.
    match goal with Hf : findall d (URL +++ "infCTe") None = Ok _ |- _ =>
      rewrite Hct in Hf; injection Hf as <- end.
    apply in_or_app. right. eapply collect_chaves_in; eassumption.
Qed.

Lemma document_rows_labelled_nfe_witness :
  exists v pg, dacteos plain_utils plain_config (sample_doc "1") = Ok (v, pg) /\
  ((exists pre post rows,
      pg = pre ++ concat rows ++ post /\
      Forall2 (fun c row => exists f, row = [Cell "NFE"; Cell c; Cell f])
              (inf_doc_list v) rows)
   /\ (forall d ctes n c, inf_doc (v_nodes v) = Some d ->
         findall d (URL +++ "infCTe") None = Ok ctes -> In n ctes ->
         find_text (Some n) "chave" = Ok c -> c <> "" ->
         In c (inf_doc_list v))).
Proof.
  destruct (dacteos plain_utils plain_config (sample_doc "1")) as [[v pg]|e] eqn:E.
  - exists v, pg. split; [reflexivity|].
    apply (document_rows_labelled_nfe plain_utils plain_config (sample_doc "1") v pg E).
  - vm_compute in E. discriminate.
Defined.

Lemma collect_chaves_filter l :
  collect_chaves l = Ok (filter (fun c => negb (String.eqb c "")) (map chave_of l)).
Proof.
  induction l as [|n l IH]; [reflexivity|]. cbn [collect_chaves map filter].
  destruct (find_text_ok (Some n) "chave" eq_refl) as [c Hc].
  replace (chave_of n) with c by (unfold chave_of; rewrite Hc; reflexivity).
  rewrite Hc, IH. cbn [bind]. destruct (String.eqb c ""); reflexivity.
Qed.

(** C3 (corrected): the list holds the non-empty keys of all [infNFe]
    elements inside the [infDoc] subtree, in document order, followed by
    those of all [infCTe] elements inside it: grouped by kind, not in
    document order. *)
Theorem inf_doc_grouped_by_kind (d : element) :
  extract_inf_doc (Some d) =
    Ok (filter (fun c => negb (String.eqb c "")) (map chave_of (desc_tagged (ns_tag "infNFe") d))
        ++ filter (fun c => negb (String.eqb c "")) (map chave_of (desc_tagged (ns_tag "infCTe") d))).
Proof.
  unfold extract_inf_doc.
  rewrite (findall_url d "infNFe" eq_refl), (findall_url d "infCTe" eq_refl). cbn [bind].
  rewrite !collect_chaves_filter. reflexivity.
Qed.

(** C3, counterexample to document order: with the transport-document
    reference before the invoice reference, the first entry is the key of
    the second reference node, both in [extract_inf_doc] and in the view of a
    whole document. *)
Lemma inf_doc_not_document_order :
  extract_inf_doc (Some (node "infDoc" reversed_docs)) = Ok [sample_nfe; sample_cte]
  /\ match dacteos plain_utils plain_config
             (sample_doc_with "1" sample_imp (sample_norm reversed_docs)
                              [sample_prot [sample_inf_prot]]) with
     | Ok (v, _) => inf_doc_list v
     | Err _ => []
     end = [sample_nfe; sample_cte]
  /\ findall (node "infDoc" reversed_docs) (URL +++ "infCTe") None <> Ok []
  /\ map chave_of reversed_docs = [sample_cte; sample_nfe].
Proof. vm_compute. repeat split; discriminate. Qed.

(** ** Missing optional subtrees *)

(** C2 (code bug): a document whose [imp] (tax) block or [infModal] (modal)
    block is absent does not construct: [self.imp.find(...)] and
    [self.inf_modal.find(...)] are attribute accesses on [None]. *)
Theorem missing_tax_or_modal_raises (u : utils) (cfg : config) (root : element)
    (nd : nodes) (Hp : parse_nodes root = Ok nd)
    (Hmiss : imp nd = None \/ inf_modal nd = None) :
  is_err (dacteos u cfg root) = true.
Proof.
  unfold dacteos. apply is_err_bind_l. unfold extract_view. rewrite Hp. cbn [bind].
  do 3 (apply is_err_bind; intros ? _).
  destruct Hmiss as [Hi|Hm].
  - apply is_err_bind_l. unfold extract_tax. rewrite Hi. reflexivity.
  - do 4 (apply is_err_bind; intros ? _).
    apply is_err_bind_l. unfold extract_modal. rewrite Hm. reflexivity.
Qed.

Lemma missing_tax_or_modal_raises_witness :
  is_err (dacteos plain_utils plain_config doc_no_imp) = true
  /\ is_err (dacteos plain_utils plain_config doc_no_modal) = true
  /\ dacteos plain_utils plain_config doc_no_imp = Err AttributeError
  /\ dacteos plain_utils plain_config doc_no_modal = Err AttributeError.
Proof.
  split; [|split; [|split; vm_compute; reflexivity]].
  - destruct (parse_nodes doc_no_imp) as [nd|e] eqn:E; [|vm_compute in E; discriminate].
    apply (missing_tax_or_modal_raises plain_utils plain_config doc_no_imp nd E).
    vm_compute in E. injection E as <-. left. reflexivity.
  - destruct (parse_nodes doc_no_modal) as [nd|e] eqn:E; [|vm_compute in E; discriminate].
    apply (missing_tax_or_modal_raises plain_utils plain_config doc_no_modal nd E).
    vm_compute in E. injection E as <-. right. reflexivity.
Defined.

(** ** The usage protocol *)

(** An [infProt] block whose receipt timestamp does not parse makes the
    construction raise [ValueError], before any helper runs. *)
Lemma receipt_unparseable_raises u cfg root nd p s :
  parse_nodes root = Ok nd -> inf_prot nd = Some p ->
  find_text (Some p) "dhRecbto" = Ok s -> fromisoformat s = None ->
  dacteos u cfg root = Err ValueError.
Proof.
  intros Hp Hi Hs Hf. unfold dacteos, extract_view. rewrite Hp. cbn [bind].
  unfold extract_ident. rewrite Hi. unfold get_usage_protocol. rewrite Hs. cbn [bind]. rewrite Hf.
  ft_ok. reflexivity.
Qed.

(** C4 (code bug): the emission timestamp keeps its raw text when it does not
    parse and an absent protocol gives "N/A", but a receipt timestamp that
    does not parse is fatal: construction raises [ValueError]. *)
Theorem dh_recbto_unparseable_fatal (u : utils) (cfg : config) (root : element)
    (nd : nodes) (p : element) (s : string)
    (Hp : parse_nodes root = Ok nd) (Hi : inf_prot nd = Some p)
    (Hs : find_text (Some p) "dhRecbto" = Ok s) (Hf : fromisoformat s = None) :
  dacteos u cfg root = Err ValueError
  /\ format_dh_emi s = s
  /\ get_usage_protocol None = Ok "N/A".
Proof.
  split; [exact (receipt_unparseable_raises u cfg root nd p s Hp Hi Hs Hf)|].
  split; [|reflexivity]. unfold format_dh_emi. rewrite Hf. reflexivity.
Qed.

Lemma dh_recbto_unparseable_fatal_witness :
  dacteos plain_utils plain_config doc_bad_recbto = Err ValueError
  /\ format_dh_emi "15/01/2024 10:31:00" = "15/01/2024 10:31:00"
  /\ get_usage_protocol None = Ok "N/A".
Proof.
  destruct (parse_nodes doc_bad_recbto) as [nd|e] eqn:E; [|vm_compute in E; discriminate].
  apply (dh_recbto_unparseable_fatal plain_utils plain_config doc_bad_recbto nd
           bad_inf_prot "15/01/2024 10:31:00" E).
  - vm_compute in E. injection E as <-. reflexivity.
  - reflexivity.
  - reflexivity.
Defined.

(** C9 (code bug): for an [infProt] element with no children the watermark
    test would see [bool(inf_prot)] false, but the page is never drawn: the
    usage protocol reads [dhRecbto] as the empty string, which does not
    parse, and construction raises [ValueError]. *)
Theorem childless_inf_prot_raises (u : utils) (cfg : config) (root : element)
    (nd : nodes) (p : element)
    (Hp : parse_nodes root = Ok nd) (Hi : inf_prot nd = Some p)
    (Hc : el_children p = []) :
  py_truthy (inf_prot nd) = false /\ dacteos u cfg root = Err ValueError.
Proof.
  split.
  - rewrite Hi. simpl. unfold el_bool. rewrite Hc. reflexivity.
  - apply (receipt_unparseable_raises u cfg root nd p ""); try assumption.
    + exact (find_text_childless p "dhRecbto" Hc eq_refl).
    + reflexivity.
Qed.

Lemma childless_inf_prot_raises_witness :
  py_truthy (Some empty_inf_prot) = false
  /\ dacteos plain_utils plain_config doc_empty_prot = Err ValueError.
Proof.
  destruct (parse_nodes doc_empty_prot) as [nd|e] eqn:E; [|vm_compute in E; discriminate].
  assert (Hnd := E). vm_compute in Hnd. injection Hnd as Hnd.
  pose proof (childless_inf_prot_raises plain_utils plain_config doc_empty_prot nd
                empty_inf_prot E) as Hth.
  subst nd. apply Hth; reflexivity.
Defined.

(** ** The tax block *)

(** C6 (code bug): the [ICMS00] test is [if icms_node:], element truthiness,
    where the [ICMSOutraUF] test is [is not None]: a present [ICMS00] element
    with no children, whatever its attributes and text, is handled exactly
    as an absent one, with the zero defaults and no field read. *)
Theorem icms00_childless_is_absent (u : utils) (cfg : config)
    (attrs : list (string * string)) (txt : option string) :
  extract_tax u cfg (Some (node "imp" [node "ICMS" [Element (ns_tag "ICMS00") attrs txt []]]))
  = extract_tax u cfg (Some (node "imp" [node "ICMS" []]))
  /\ extract_tax u cfg (Some (node "imp" [node "ICMS" [Element (ns_tag "ICMS00") attrs txt []]]))
     = Ok (mkTax "" "0.00" "0.00" "0.00" "0.00" "0.00" (dict_get (TP_ICMS u) "" "Outros")).
Proof. split; reflexivity. Qed.

(** * Further properties of the extraction and the layout *)

(** ** [str.strip] and [find_text] *)

Lemma rstrip_shape c s : rstrip (String c s) = EmptyString \/ exists r, rstrip (String c s) = String c r.
Proof. simpl. destruct (rstrip s); [destruct (is_space c)|]; eauto. Qed.

Lemma rstrip_idem s : rstrip (rstrip s) = rstrip s.
Proof.
  induction s as [|c s IH]; [reflexivity|]. simpl.
  destruct (rstrip s) as [|d r] eqn:E.
  - destruct (is_space c) eqn:Hc; simpl; [reflexivity|]. rewrite Hc. reflexivity.
  - change (rstrip (String c (String d r))) with
      (match rstrip (String d r) with
       | EmptyString => if is_space c then EmptyString else String c EmptyString
       | r0 => String c r0 end).
    rewrite IH. reflexivity.
Qed.

Lemma lstrip_rstrip_lstrip s : lstrip (rstrip (lstrip s)) = rstrip (lstrip s).
Proof.
  induction s as [|c s IH]; [reflexivity|]. simpl.
  destruct (is_space c) eqn:Hc; [exact IH|].
  destruct (rstrip_shape c s) as [E|[r E]]; rewrite E; [reflexivity|].
  simpl. rewrite Hc. reflexivity.
Qed.

Lemma strip_idem s : strip (strip s) = strip s.
Proof.
  unfold strip. rewrite lstrip_rstrip_lstrip. apply rstrip_idem.
Qed.

(** X1: [find_text] returns text with no surrounding whitespace: whatever it
    returns is left unchanged by [str.strip]. *)
Lemma find_text_ns_strip_fixed (element : option element) (xpath : string)
    (namespace : option (list (string * string))) (r : string) :
  find_text_ns element xpath namespace = Ok r -> strip r = r.
Proof.
  intros H. unfold find_text_ns in H.
  destruct element as [el|]; [|injection H as <-; reflexivity].
  destruct (find el xpath _) as [f|e]; cbn [bind] in H; [|discriminate].
  destruct (match f with Some f => el_text f | None => None end) as [t|].
  - injection H as <-. apply strip_idem.
  - cbv zeta in H. destruct (get_tag_text el URL _) as [g|e]; cbn [bind] in H; [|discriminate].
    destruct (negb (String.eqb g "")); injection H as <-; [apply strip_idem | reflexivity].
Qed.

Theorem find_text_stripped (element : option element) (xpath : string)
    (namespace : option (list (string * string))) (r : string)
    (H : find_text_ns element xpath namespace = Ok r) :
  strip r = r.
Proof. exact (find_text_ns_strip_fixed element xpath namespace r H). Qed.

Lemma find_text_stripped_witness :
  find_text_ns (Some (node "infProt" [leaf "nProt" "  135 "])) "nProt" None = Ok "135"
  /\ strip "135" = "135".
Proof.
  split; [reflexivity|].
  apply (find_text_stripped (Some (node "infProt" [leaf "nProt" "  135 "])) "nProt" None).
  reflexivity.
Defined.

Lemma split_first_app c p n : contains_char c p = false ->
  split_first c (p +++ String c n) = (p, n).
Proof.
  induction p as [|d p IH]; cbn [String.append split_first contains_char].
  - rewrite Ascii.eqb_refl. reflexivity.
  - intros H. apply orb_false_elim in H as [H1 H2]. rewrite H1, (IH H2). reflexivity.
Qed.

(** The path [prefix:name] with an unbound prefix: the tokenizer raises
    [SyntaxError]. *)
Lemma path_steps_unbound ns p n :
  is_name p = true -> is_name n = true -> assoc_get p ns = None ->
  path_steps ns (p +++ String ":" n) = Err SyntaxError.
Proof.
  intros Hp Hn Hu.
  destruct p as [|c r]; [discriminate|].
  pose proof Hp as Hp'. cbn [is_name] in Hp'. apply andb_prop in Hp' as [Hc Hr].
  destruct (name_char_facts c Hc) as (Ht & _ & _ & Hb & _).
  assert (Hsl : contains_char "/" (String c r +++ String ":" n) = false).
  { rewrite contains_app, (is_name_no "/" _ Hp ltac:(auto)). cbn [contains_char orb].
    rewrite (is_name_no "/" _ Hn ltac:(auto)). reflexivity. }
  assert (Hcol : contains_char ":" (String c r +++ String ":" n) = true).
  { rewrite contains_app. cbn [contains_char]. rewrite Ascii.eqb_refl, !orb_true_r. reflexivity. }
  unfold path_steps. cbv zeta.
  rewrite (ends_with_name "/" "/" _ eq_refl Hsl). cbv beta iota.
  cbn [String.append]. rewrite (starts_slash_name c _ Hc). cbv beta iota.
  cbn [String.length]. rewrite tokenize_plain; [|exact Hc|].
  2:{ rewrite all_chars_app. cbn [all_chars].
      rewrite (all_chars_impl _ _ r name_tail_char_tag Hr), (is_name_tag n Hn). reflexivity. }
  cbn [ns_tokens]. change (String.eqb (String c (r +++ String ":" n)) "") with false.
  cbn [starts_with]. rewrite Ascii.eqb_sym, Hb. cbn [negb andb].
  change (String c (r +++ String ":" n)) with (String c r +++ String ":" n).
  rewrite Hcol, (split_first_app ":" (String c r) n (is_name_no ":" _ Hp ltac:(auto))).
  cbv beta iota.
  destruct ns as [|kv ns']; [reflexivity|]. rewrite Hu. reflexivity.
Qed.

(** X2: [find_text] on an element with a tag name [prefix:name] whose
    prefix is not bound in the namespace map raises [SyntaxError], as
    ElementPath does; only a [None] element gives the empty string there. *)
Theorem find_text_unbound_prefix (el : element) (p n : string)
    (namespace : option (list (string * string)))
    (Hp : is_name p = true) (Hn : is_name n = true)
    (Hu : assoc_get p (ns_of namespace) = None) :
  find_text_ns (Some el) (p +++ ":" +++ n) namespace = Err SyntaxError
  /\ find_text_ns None (p +++ ":" +++ n) namespace = Ok "".
Proof.
  split; [|reflexivity].
  unfold find_text_ns.
  change (match namespace with Some n => n | None => default_namespace end) with (ns_of namespace).
  unfold find, iterfind. change (":" +++ n) with (String ":" n).
  rewrite (path_steps_unbound _ p n Hp Hn Hu). reflexivity.
Qed.

Lemma find_text_unbound_prefix_witness :
  (is_name "nfe" = true /\ is_name "nProt" = true /\ assoc_get "nfe" (ns_of None) = None)
  /\ find_text_ns (Some sample_inf_prot) ("nfe" +++ ":" +++ "nProt") None = Err SyntaxError
  /\ find_text_ns None ("nfe" +++ ":" +++ "nProt") None = Ok "".
Proof.
  split; [repeat split; reflexivity|].
  apply (find_text_unbound_prefix sample_inf_prot "nfe" "nProt" None);
    reflexivity.
Defined.

(** ** The access key in groups of four *)

Lemma substring_split n m s : (String.length s <= n + m)%nat ->
  substring 0 n s +++ substring n m s = s
  /\ String.length (substring n m s) = (String.length s - n)%nat.
Proof.
  revert n m. induction s as [|c s IH]; intros n m Hl.
  - destruct n, m; split; reflexivity.
  - destruct n as [|n].
    + destruct m as [|m]; simpl in Hl; [lia|].
      simpl. rewrite substring_0_long by lia. split; reflexivity.
    + simpl in Hl. destruct (IH n m ltac:(lia)) as [H1 H2].
      simpl. rewrite H1. split; [reflexivity|exact H2].
Qed.

Lemma substring_0_length n s :
  String.length (substring 0 n s) = Nat.min n (String.length s).
Proof.
  revert n. induction s as [|c s IH]; intros [|n]; simpl; try reflexivity.
  rewrite IH. reflexivity.
Qed.

Lemma append_empty_r (h : string) : h +++ "" = h.
Proof. induction h as [|c h IH]; simpl; [reflexivity|]. rewrite IH. reflexivity. Qed.

Lemma concat_empty_cons (h : string) (t : list string) :
  String.concat "" (h :: t) = h +++ String.concat "" t.
Proof.
  destruct t; simpl; [|reflexivity]. symmetry. apply append_empty_r.
Qed.

Lemma chunks_spec f s : (String.length s <= f)%nat ->
  String.concat "" (chunks 4 f s) = s
  /\ Forall (fun g => 1 <= String.length g <= 4)%nat (chunks 4 f s)
  /\ Forall (fun g => String.length g = 4%nat) (removelast (chunks 4 f s))
  /\ List.length (chunks 4 f s) = ((String.length s + 3) / 4)%nat.
Proof.
  revert s. induction f as [|f IH]; intros s Hl.
  - destruct s; simpl in Hl; [|lia]. repeat split; constructor.
  - destruct s as [|c s']; [repeat split; constructor|].
    set (s := String c s') in *.
    assert (Hs : (1 <= String.length s)%nat) by (simpl; lia).
    destruct (substring_split 4 (String.length s) s ltac:(lia)) as [Hsp Hlr].
    change (chunks 4 (S f) s)
      with (substring 0 4 s :: chunks 4 f (substring 4 (String.length s) s)).
    set (r := substring 4 (String.length s) s) in *. clearbody r.
    destruct (IH r ltac:(rewrite Hlr; lia)) as (Hc & Hf & Hrl & Hlen).
    assert (Hh := substring_0_length 4 s).
    split; [|split; [|split]].
    + rewrite concat_empty_cons, Hc. exact Hsp.
    + constructor; [lia|exact Hf].
    + destruct (chunks 4 f r) as [|g gs] eqn:Ec; [constructor|].
      change (removelast (substring 0 4 s :: g :: gs))
        with (substring 0 4 s :: removelast (g :: gs)).
      constructor; [|exact Hrl].
      assert (String.length r <> 0%nat).
      { intros E0. destruct r; [|discriminate]. destruct f; discriminate Ec. }
      lia.
    + simpl List.length. rewrite Hlen, Hlr.
      destruct (Nat.le_gt_cases (String.length s) 4).
      * replace (String.length s - 4)%nat with 0%nat by lia.
        assert ((String.length s + 3) / 4 = 1)%nat as -> by
          (symmetry; apply Nat.div_unique with (String.length s - 1)%nat; lia).
        reflexivity.
      * replace (String.length s + 3)%nat with (String.length s - 4 + 3 + 1 * 4)%nat by lia.
        rewrite Nat.div_add by lia. lia.
Qed.

(** X3: The displayed key, for a key of any length: the key cut into groups of
    four characters, the last one possibly shorter, joined by single
    spaces; the groups put together give back the key. *)
Theorem format_key_groups (key : string) :
  exists groups : list string,
    format_key key = String.concat " " groups
    /\ String.concat "" groups = key
    /\ Forall (fun g => 1 <= String.length g <= 4)%nat groups
    /\ Forall (fun g => String.length g = 4%nat) (removelast groups)
    /\ List.length groups = ((String.length key + 3) / 4)%nat.
Proof.
  exists (chunks 4 (String.length key) key). split; [reflexivity|].
  apply chunks_spec. lia.
Qed.

(** ** The vertical cursor of the drawing phases *)

Lemma mm_value : mm == 360 # 127.
Proof. reflexivity. Qed.

(** X4: The footer declaration starts [94 * mm] plus the receipt, header,
    tomador, documents, modal and footer heights below the top margin:
    [percurso_height] and [service_height] are never read, the route and
    service sections always take [16 * mm] and [48 * mm]. *)
Theorem footer_start_formula (lay : DacteOSLayout) (t_margin : Q) :
  last (phase_starts lay t_margin) 0
  == t_margin + receipt_height lay + header_height lay + tomador_height lay
     + documents_height lay + modal_height lay + footer_height lay + 94 * mm.
Proof.
  unfold phase_starts; cbn [last].
  unfold receipt_section_y, header_section_y,
  percurso_and_cfop_y, tomador_section_y, service_info_and_values_y,
  documents_and_observations_y, modal_specific_data_rodo_os_y.
  ring.
Qed.

(** X5: With the default layout, [reportlab]'s [mm] (2.83 points) used as a
    length in a document whose unit is the millimetre puts the tomador,
    service, documents, modal and footer sections entirely below the
    bottom of the A4 page for any top margin [t_margin >= 0]; automatic page
    breaks are off (line 75), so they are drawn off the page. *)
Theorem default_layout_below_page (t_margin : Q) (Ht : 0 <= t_margin) :
  Forall (fun y => a4_height < y) (skipn 3 (phase_starts default_layout t_margin))
  /\ a4_height < footer_bottom default_layout t_margin.
Proof.
  unfold footer_bottom, phase_starts, a4_height; cbn [skipn last].
  unfold receipt_section_y, header_section_y,
  percurso_and_cfop_y, tomador_section_y, service_info_and_values_y,
  documents_and_observations_y, modal_specific_data_rodo_os_y, default_layout.
  cbn [receipt_height header_height tomador_height documents_height
       modal_height footer_height].
  assert (Hm := mm_value). generalize dependent mm. intros m Hm.
  repeat constructor; lra.
Qed.

(** ** Timestamps *)

Lemma parse_fixed_app s n r : all_digits s = true -> String.length s = n ->
  parse_fixed n (s +++ r) = Some (dval s 0, r).
Proof.
  intros Hd <-. induction s as [|c s IH]; [reflexivity|].
  cbn [all_digits] in Hd. apply andb_true_iff in Hd as [Hc Hs].
  cbn [String.length parse_fixed append]. rewrite (digit_val_dv c Hc), (IH Hs).
  cbn [dval]. rewrite (dval_acc s (0 * 10 + dv c)%Z). do 2 f_equal; lia.
Qed.

Lemma digits_fixed_len s n : all_digits s = true -> String.length s = n ->
  digits_fixed n (dval s 0) = s.
Proof. intros Hd <-. apply digits_fixed_dval, Hd. Qed.

Lemma ndigits_aux_exact k fuel n : (k <= fuel)%nat ->
  (10 ^ Z.of_nat k <= n < 10 ^ Z.of_nat (S k))%Z -> ndigits_aux fuel n = S k.
Proof.
  revert fuel n. induction k as [|k IH]; intros fuel n Hf Hn.
  - destruct fuel; simpl; [reflexivity|]. simpl in Hn.
    destruct (n <? 10)%Z eqn:E; [reflexivity|]. apply Z.ltb_ge in E. lia.
  - destruct fuel as [|f]; [lia|]. simpl.
    assert (H10 : (10 ^ Z.of_nat (S k) = 10 * 10 ^ Z.of_nat k)%Z)
      by (rewrite Nat2Z.inj_succ, Z.pow_succ_r; lia).
    assert (H10' : (10 ^ Z.of_nat (S (S k)) = 10 * 10 ^ Z.of_nat (S k))%Z)
      by (rewrite (Nat2Z.inj_succ (S k)), Z.pow_succ_r; lia).
    assert (0 < 10 ^ Z.of_nat k)%Z by (apply Z.pow_pos_nonneg; lia).
    destruct (n <? 10)%Z eqn:E; [apply Z.ltb_lt in E; lia|].
    f_equal. apply IH; [lia|]. split.
    + apply Z.div_le_lower_bound; lia.
    + apply Z.div_lt_upper_bound; lia.
Qed.

Lemma ndigits_four y : (1000 <= y <= 9999)%Z -> ndigits y = 4%nat.
Proof.
  intros Hy. unfold ndigits. apply ndigits_aux_exact; [lia|].
  simpl. lia.
Qed.

Lemma expect_lit c r : expect c (String c EmptyString +++ r) = Some r.
Proof. simpl. rewrite Ascii.eqb_refl. reflexivity. Qed.

Lemma append_assoc_str (x y z : string) : (x +++ y) +++ z = x +++ y +++ z.
Proof. induction x as [|c x IH]; simpl; [reflexivity|]. rewrite IH. reflexivity. Qed.

Lemma get_at_length x k c y : String.length x = k -> String.get k (x +++ String c y) = Some c.
Proof.
  revert k. induction x as [|d x IH]; intros k Hk; simpl in Hk; subst k; simpl;
    [reflexivity | apply IH; reflexivity].
Qed.

Lemma substring_after x k c y : String.length x = k ->
  substring (S k) (String.length y) (x +++ String c y) = y.
Proof.
  revert k. induction x as [|d x IH]; intros k Hk; simpl in Hk; subst k; simpl.
  - induction y as [|e y IHy]; simpl; [reflexivity|]. rewrite IHy. reflexivity.
  - apply IH. reflexivity.
Qed.

Lemma digit_not_sign c : is_digit c = true -> is_sign c = false.
Proof. destruct c as [[|][|][|][|][|][|][|][|]]; vm_compute; congruence. Qed.

Lemma break_sign_app a b :
  all_chars (fun c => negb (is_sign c)) a = true ->
  match b with EmptyString => true | String c _ => is_sign c end = true ->
  break_sign (a +++ b) = (a, b).
Proof.
  intros Ha Hb. induction a as [|c a IH]; simpl.
  - destruct b as [|c b]; [reflexivity|]. simpl. rewrite Hb. reflexivity.
  - cbn [all_chars] in Ha. apply andb_prop in Ha as [H1 H2].
    destruct (is_sign c); [discriminate|]. rewrite (IH H2). reflexivity.
Qed.

Lemma digits_not_sign s : all_digits s = true -> all_chars (fun c => negb (is_sign c)) s = true.
Proof.
  induction s as [|c s IH]; simpl; [reflexivity|]. intros H.
  apply andb_prop in H as [H1 H2]. rewrite (digit_not_sign c H1), (IH H2). reflexivity.
Qed.

(** A two-digit component followed by [:] and more text. *)
Lemma hms_loop_colon k x r term vals :
  all_digits x = true -> String.length x = 2%nat -> r <> EmptyString ->
  hms_loop (S k) (x +++ String ":" r) term vals = hms_loop k r term (vals ++ [dval x 0]).
Proof.
  intros Hd Hl Hr. cbn [hms_loop]. rewrite (parse_fixed_app x 2 _ Hd Hl).
  destruct r; [contradiction|]. reflexivity.
Qed.

(** A last two-digit component at the end of the text. *)
Lemma hms_loop_last k x term vals :
  all_digits x = true -> String.length x = 2%nat ->
  hms_loop (S k) x term vals = Some (negb (Ascii.eqb term NUL), vals ++ [dval x 0], 0%Z).
Proof.
  intros Hd Hl. cbn [hms_loop]. rewrite <- (append_empty_r x) at 1.
  rewrite (parse_fixed_app x 2 _ Hd Hl). reflexivity.
Qed.

Lemma app_colon_nonempty x y : x +++ String ":" y <> EmptyString.
Proof. destruct x; discriminate. Qed.

(** [HH:MM:SS] ending at a character [term]. *)
Lemma hms_fields hh mi ss term :
  all_digits hh = true -> String.length hh = 2%nat ->
  all_digits mi = true -> String.length mi = 2%nat ->
  all_digits ss = true -> String.length ss = 2%nat ->
  parse_hh_mm_ss_ff (hh +++ ":" +++ mi +++ ":" +++ ss) term
  = Some (negb (Ascii.eqb term NUL), dval hh 0, dval mi 0, dval ss 0, 0%Z).
Proof.
  intros Hdh Hlh Hdm Hlm Hds Hls. unfold parse_hh_mm_ss_ff.
  change (hh +++ ":" +++ mi +++ ":" +++ ss) with (hh +++ String ":" (mi +++ String ":" ss)).
  rewrite (hms_loop_colon 2 hh _ term [] Hdh Hlh (app_colon_nonempty mi ss)).
  rewrite (hms_loop_colon 1 mi ss term _ Hdm Hlm).
  - rewrite (hms_loop_last 0 ss term _ Hds Hls). reflexivity.
  - destruct ss; [discriminate|]. discriminate.
Qed.

(** The time text [HH:MM:SS] with an offset accepted by [utc_offset_ok]:
    the fields, and an offset inside the range of [timezone]. *)
Lemma iso_time_fields hh mi ss off :
  all_digits hh = true -> String.length hh = 2%nat ->
  all_digits mi = true -> String.length mi = 2%nat ->
  all_digits ss = true -> String.length ss = 2%nat ->
  utc_offset_ok off = true ->
  exists tz, parse_isoformat_time (hh +++ ":" +++ mi +++ ":" +++ ss +++ off)
             = Some (dval hh 0, dval mi 0, dval ss 0, 0%Z, tz)
    /\ match tz with
       | Some (o, o_us) =>
           let t := (o * 1000000 + o_us)%Z in
           ((-86400000000 <? t) && (t <? 86400000000))%Z
       | None => true
       end = true.
Proof.
  intros Hdh Hlh Hdm Hlm Hds Hls Hoff. unfold parse_isoformat_time.
  replace (hh +++ ":" +++ mi +++ ":" +++ ss +++ off)
    with ((hh +++ ":" +++ mi +++ ":" +++ ss) +++ off) by (rewrite !append_assoc_str; reflexivity).
  assert (Ha : all_chars (fun c => negb (is_sign c)) (hh +++ ":" +++ mi +++ ":" +++ ss) = true).
  { rewrite !all_chars_app, (digits_not_sign hh Hdh), (digits_not_sign mi Hdm),
      (digits_not_sign ss Hds). reflexivity. }
  assert (Hb : match off with EmptyString => true | String c _ => is_sign c end = true).
  { destruct off as [|sg r]; [reflexivity|]. simpl in Hoff.
    destruct r as [|h1 [|h2 [|c [|m1 [|m2 [|]]]]]]; try discriminate.
    destruct (is_sign sg); [reflexivity|discriminate]. }
  rewrite (break_sign_app _ _ Ha Hb). cbv beta iota.
  rewrite hms_fields by assumption.
  destruct off as [|sg r].
  - exists None. split; reflexivity.
  - simpl in Hb.
    simpl in Hoff.
    destruct r as [|h1 [|h2 [|c [|m1 [|m2 [|]]]]]]; try discriminate.
    apply andb_prop in Hoff as [Hoff Hm]. apply andb_prop in Hoff as [Hoff Hh].
    apply andb_prop in Hoff as [Hoff Hdm2]. apply andb_prop in Hoff as [Hoff Hdh2].
    apply andb_prop in Hoff as [_ Hc]. apply Ascii.eqb_eq in Hc. subst c.
    apply Z.ltb_lt in Hh, Hm.
    cbn [String.length Nat.eqb orb negb].
    change (String h1 (String h2 (String ":" (String m1 (String m2 EmptyString)))))
      with (String h1 (String h2 EmptyString) +++ String ":" (String m1 (String m2 EmptyString))).
    unfold parse_hh_mm_ss_ff.
    rewrite (hms_loop_colon 2 (String h1 (String h2 EmptyString))
      (String m1 (String m2 EmptyString)) NUL [] Hdh2 eq_refl) by discriminate.
    rewrite (hms_loop_last 1 (String m1 (String m2 EmptyString)) NUL _ Hdm2 eq_refl). cbn [Ascii.eqb Bool.eqb negb nth app].
    eexists. split; [reflexivity|].
    assert (Hb1 := dval_bound (String h1 (String h2 EmptyString)) Hdh2).
    assert (Hb2 := dval_bound (String m1 (String m2 EmptyString)) Hdm2).
    simpl in Hb1, Hb2.
    cbn [dval] in *.
    destruct (Ascii.eqb sg "-"); cbv zeta; apply andb_true_intro; split; apply Z.ltb_lt; lia.
Qed.

Section IsoTimestamp.

Variables (Y M D hh mi ss off : string) (sep : ascii).
Hypotheses (HdY : all_digits Y = true) (HlY : String.length Y = 4%nat)
  (HdM : all_digits M = true) (HlM : String.length M = 2%nat)
  (HdD : all_digits D = true) (HlD : String.length D = 2%nat)
  (Hdh : all_digits hh = true) (Hlh : String.length hh = 2%nat)
  (Hdmi : all_digits mi = true) (Hlmi : String.length mi = 2%nat)
  (Hdss : all_digits ss = true) (Hlss : String.length ss = 2%nat)
  (Hyear : (1000 <= dval Y 0)%Z)
  (Hmonth : (1 <= dval M 0 <= 12)%Z)
  (Hday : (1 <= dval D 0 <= days_in_month (dval Y 0) (dval M 0))%Z)
  (Hhour : (dval hh 0 < 24)%Z) (Hmin : (dval mi 0 < 60)%Z) (Hsec : (dval ss 0 < 60)%Z)
  (Hsep : (nat_of_ascii sep < 128)%nat)
  (Hoff : utc_offset_ok off = true).

Lemma fromisoformat_fields :
  fromisoformat (Y +++ "-" +++ M +++ "-" +++ D +++ String sep (hh +++ ":" +++ mi +++ ":" +++ ss +++ off))
  = Some (mkDatetime (dval Y 0) (dval M 0) (dval D 0) (dval hh 0) (dval mi 0) (dval ss 0) 0).
Proof.
  set (T := hh +++ ":" +++ mi +++ ":" +++ ss +++ off).
  unfold fromisoformat, parse_isoformat_date.
  rewrite (parse_fixed_app Y 4 _ HdY HlY). rewrite expect_lit.
  rewrite (parse_fixed_app M 2 _ HdM HlM). rewrite expect_lit.
  rewrite (parse_fixed_app D 2 _ HdD HlD). cbv beta iota zeta.
  set (X := Y +++ "-" +++ M +++ "-" +++ D).
  assert (HX : String.length X = 10%nat)
    by (unfold X; rewrite !length_app, HlY, HlM, HlD; reflexivity).
  replace (Y +++ "-" +++ M +++ "-" +++ D +++ String sep T) with (X +++ String sep T)
    by (unfold X; rewrite !append_assoc_str; reflexivity).
  rewrite length_app, HX. cbn [String.length Nat.leb Nat.ltb Nat.add].
  unfold char_at. rewrite (get_at_length X 10 sep T HX).
  assert (Hskip : utf8_skip sep = 11%nat)
    by (unfold utf8_skip; apply Nat.ltb_lt in Hsep; rewrite Hsep; reflexivity).
  rewrite Hskip.
  replace (Nat.leb (S (S (S (S (S (S (S (S (S (S (S (String.length T)))))))))))) 10)
    with false by reflexivity.
  replace (Nat.ltb (S (S (S (S (S (S (S (S (S (S (S (String.length T)))))))))))) 11)
    with false by reflexivity.
  cbv beta iota.
  replace (S (S (S (S (S (S (S (S (S (S (S (String.length T))))))))))) - 11)%nat
    with (String.length T) by lia.
  rewrite (substring_after X 10 sep T HX).
  destruct (iso_time_fields hh mi ss off Hdh Hlh Hdmi Hlmi Hdss Hlss Hoff) as (tz & Ht & Htz).
  fold T in Ht. rewrite Ht. cbv beta iota.
  assert (Hb := dval_bound Y HdY). rewrite HlY in Hb. simpl in Hb.
  assert (Hh0 := dval_bound hh Hdh). assert (Hm0 := dval_bound mi Hdmi).
  assert (Hs0 := dval_bound ss Hdss).
  destruct tz as [[o ous]|]; cbv zeta in Htz |- *; try rewrite Htz; unfold in_range;
  match goal with |- (if ?b then _ else _) = _ => replace b with true; [reflexivity|] end;
  symmetry; rewrite !andb_true_iff, !Z.leb_le; lia.
Qed.

Lemma strftime_fields :
  strftime_dmy_hms (mkDatetime (dval Y 0) (dval M 0) (dval D 0) (dval hh 0) (dval mi 0) (dval ss 0) 0)
  = D +++ "/" +++ M +++ "/" +++ Y +++ " " +++ hh +++ ":" +++ mi +++ ":" +++ ss.
Proof.
  unfold strftime_dmy_hms. cbn [dt_year dt_month dt_day dt_hour dt_minute dt_second].
  assert (Hb := dval_bound Y HdY). rewrite HlY in Hb. simpl in Hb.
  rewrite (ndigits_four (dval Y 0)) by lia.
  rewrite (digits_fixed_len D 2 HdD HlD), (digits_fixed_len M 2 HdM HlM),
    (digits_fixed_len Y 4 HdY HlY), (digits_fixed_len hh 2 Hdh Hlh),
    (digits_fixed_len mi 2 Hdmi Hlmi), (digits_fixed_len ss 2 Hdss Hlss).
  reflexivity.
Qed.

End IsoTimestamp.

(** X6: [dhEmi] of the form [YYYY-MM-DD?HH:MM:SS] with any ASCII separator
    character and either no UTC offset or one of the form [+HH:MM] or
    [-HH:MM] (hour below 24, minute below 60), a valid date with a
    four-digit year from 1000 on and a valid time, is shown as
    [DD/MM/YYYY HH:MM:SS]: the same digits, reordered, with the separator
    and the offset dropped. *)
Theorem format_dh_emi_iso (Y M D hh mi ss off : string) (sep : ascii)
  (HdY : all_digits Y = true) (HlY : String.length Y = 4%nat)
  (HdM : all_digits M = true) (HlM : String.length M = 2%nat)
  (HdD : all_digits D = true) (HlD : String.length D = 2%nat)
  (Hdh : all_digits hh = true) (Hlh : String.length hh = 2%nat)
  (Hdmi : all_digits mi = true) (Hlmi : String.length mi = 2%nat)
  (Hdss : all_digits ss = true) (Hlss : String.length ss = 2%nat)
  (Hyear : (1000 <= dval Y 0)%Z)
  (Hmonth : (1 <= dval M 0 <= 12)%Z)
  (Hday : (1 <= dval D 0 <= days_in_month (dval Y 0) (dval M 0))%Z)
  (Hhour : (dval hh 0 < 24)%Z) (Hmin : (dval mi 0 < 60)%Z) (Hsec : (dval ss 0 < 60)%Z)
  (Hsep : (nat_of_ascii sep < 128)%nat) (Hoff : utc_offset_ok off = true) :
  format_dh_emi (Y +++ "-" +++ M +++ "-" +++ D +++ String sep (hh +++ ":" +++ mi +++ ":" +++ ss +++ off))
  = D +++ "/" +++ M +++ "/" +++ Y +++ " " +++ hh +++ ":" +++ mi +++ ":" +++ ss.
Proof.
  unfold format_dh_emi. rewrite fromisoformat_fields by assumption.
  eapply strftime_fields; eassumption.
Qed.

Lemma format_dh_emi_iso_witness :
  format_dh_emi "2024-01-15T10:31:00-03:00" = "15/01/2024 10:31:00".
Proof.
  apply (format_dh_emi_iso "2024" "01" "15" "10" "31" "00" "-03:00" "T");
    try reflexivity; try (apply Nat.ltb_lt; reflexivity);
    try split; first [apply Z.leb_le | apply Z.ltb_lt]; reflexivity.
Defined.

(** X7: The usage protocol of a present [infProt] whose [dhRecbto] is such a
    timestamp is its [nProt], a dash, and the timestamp shown as
    [DD/MM/YYYY HH:MM:SS]. *)
Theorem usage_protocol_iso (p : element) (nprot Y M D hh mi ss off : string) (sep : ascii)
  (HdY : all_digits Y = true) (HlY : String.length Y = 4%nat)
  (HdM : all_digits M = true) (HlM : String.length M = 2%nat)
  (HdD : all_digits D = true) (HlD : String.length D = 2%nat)
  (Hdh : all_digits hh = true) (Hlh : String.length hh = 2%nat)
  (Hdmi : all_digits mi = true) (Hlmi : String.length mi = 2%nat)
  (Hdss : all_digits ss = true) (Hlss : String.length ss = 2%nat)
  (Hyear : (1000 <= dval Y 0)%Z)
  (Hmonth : (1 <= dval M 0 <= 12)%Z)
  (Hday : (1 <= dval D 0 <= days_in_month (dval Y 0) (dval M 0))%Z)
  (Hhour : (dval hh 0 < 24)%Z) (Hmin : (dval mi 0 < 60)%Z) (Hsec : (dval ss 0 < 60)%Z)
  (Hsep : (nat_of_ascii sep < 128)%nat) (Hoff : utc_offset_ok off = true)
  (Hrec : find_text (Some p) "dhRecbto"
          = Ok (Y +++ "-" +++ M +++ "-" +++ D +++ String sep (hh +++ ":" +++ mi +++ ":" +++ ss +++ off)))
  (Hnprot : find_text (Some p) "nProt" = Ok nprot) :
  get_usage_protocol (Some p)
  = Ok (nprot +++ "-" +++ D +++ "/" +++ M +++ "/" +++ Y +++ " " +++ hh +++ ":" +++ mi +++ ":" +++ ss).
Proof.
  unfold get_usage_protocol. rewrite Hrec. cbn [bind].
  rewrite fromisoformat_fields by assumption. cbn [bind].
  rewrite Hnprot. cbn [bind]. erewrite strftime_fields by eassumption. reflexivity.
Qed.

Lemma usage_protocol_iso_witness :
  get_usage_protocol (Some (node "infProt" [leaf "nProt" "135240000012345";
                                            leaf "dhRecbto" "2024-01-15T10:31:00-03:00"]))
  = Ok "135240000012345-15/01/2024 10:31:00".
Proof.
  apply (usage_protocol_iso (node "infProt" [leaf "nProt" "135240000012345";
                                             leaf "dhRecbto" "2024-01-15T10:31:00-03:00"])
           "135240000012345" "2024" "01" "15" "10" "31" "00" "-03:00" "T");
    try reflexivity; try (apply Nat.ltb_lt; reflexivity);
    try split; first [apply Z.leb_le | apply Z.ltb_lt]; reflexivity.
Defined.

(** ** Construction, phase by phase *)

Lemma extract_view_parts u cfg root v : extract_view u cfg root = Ok v ->
  parse_nodes root = Ok (v_nodes v)
  /\ extract_ident u (v_nodes v) = Ok (v_ident v)
  /\ extract_tomador u (v_nodes v) = Ok (v_tomador v)
  /\ extract_values u cfg (v_nodes v) = Ok (v_values v)
  /\ extract_tax u cfg (imp (v_nodes v)) = Ok (v_tax v)
  /\ extract_service u cfg (v_nodes v) = Ok (v_service v)
  /\ extract_inf_doc (inf_doc (v_nodes v)) = Ok (inf_doc_list v)
  /\ extract_obs (compl (v_nodes v)) = Ok (combined_obs v)
  /\ extract_modal (inf_modal (v_nodes v)) = Ok (v_modal v)
  /\ extract_qr (v_nodes v) = Ok (qr_code_data_unescaped v).
Proof. unfold extract_view. intros H. inv_binds. cbn. tauto. Qed.

Lemma render_phases u v pg : render u v = Ok pg ->
  exists p1 p2 p3 p4 p5 p6 p7 p8 p9,
    draw_receipt_section v = Ok p1 /\ draw_header_section u v = Ok p2
    /\ draw_percurso_and_cfop v = Ok p3 /\ draw_tomador_section v = Ok p4
    /\ draw_service_info_and_values u v = Ok p5
    /\ draw_documents_and_observations v = Ok p6
    /\ draw_modal_specific_data_rodo_os v = Ok p7
    /\ draw_footer_declaration u = Ok p8
    /\ draw_void_watermark_conditional v = Ok p9
    /\ pg = p1 ++ p2 ++ p3 ++ p4 ++ p5 ++ p6 ++ p7 ++ p8 ++ p9.
Proof. unfold render. intros H. inv_binds. exists a, a0, a1, a2, a3, a4, a5, a6, a7. tauto. Qed.

Lemma dacteos_parts u cfg root v pg : dacteos u cfg root = Ok (v, pg) ->
  extract_view u cfg root = Ok v /\ render u v = Ok pg.
Proof. unfold dacteos. intros H. inv_binds. auto. Qed.

(** Propagation of an exception through a chain of binds. *)
Ltac err_chain :=
  repeat first [ apply is_err_bind_l; assumption
               | apply is_err_bind; intros ? _ ].

Lemma render_err_documents u v :
  is_err (draw_documents_and_observations v) = true -> is_err (render u v) = true.
Proof. intros H. unfold render. err_chain. Qed.

Lemma render_err_modal u v :
  is_err (draw_modal_specific_data_rodo_os v) = true -> is_err (render u v) = true.
Proof. intros H. unfold render. err_chain. Qed.

Lemma render_err_header u v :
  is_err (draw_header_section u v) = true -> is_err (render u v) = true.
Proof. intros H. unfold render. err_chain. Qed.

Lemma dacteos_err_render u cfg root v :
  extract_view u cfg root = Ok v -> is_err (render u v) = true ->
  is_err (dacteos u cfg root) = true.
Proof. intros Hv Hr. unfold dacteos. rewrite Hv. cbn [bind]. err_chain. Qed.

Lemma dacteos_err_view u cfg root :
  is_err (extract_view u cfg root) = true -> is_err (dacteos u cfg root) = true.
Proof. intros H. unfold dacteos. err_chain. Qed.

Lemma extract_view_err_obs u cfg root nd :
  parse_nodes root = Ok nd -> is_err (extract_obs (compl nd)) = true ->
  is_err (extract_view u cfg root) = true.
Proof. intros Hp H. unfold extract_view. rewrite Hp. cbn [bind]. err_chain. Qed.

Lemma extract_view_err_tomador u cfg root nd :
  parse_nodes root = Ok nd -> is_err (extract_tomador u nd) = true ->
  is_err (extract_view u cfg root) = true.
Proof. intros Hp H. unfold extract_view. rewrite Hp. cbn [bind]. err_chain. Qed.

(** A loop that raises only [e] raises [e] as soon as one element does. *)
Lemma mapM_err {A B} (f : A -> result B) (l : list A) (x : A) (e : exn) :
  (forall y, In y l -> (exists b, f y = Ok b) \/ f y = Err e) ->
  In x l -> f x = Err e -> mapM f l = Err e.
Proof.
  induction l as [|y l IH]; intros Hall Hin Hx; [destruct Hin|].
  cbn [mapM]. destruct Hin as [<-|Hin].
  - rewrite Hx. reflexivity.
  - destruct (Hall y (or_introl eq_refl)) as [[b Hb]|Hb]; rewrite Hb; cbn [bind];
      [|reflexivity].
    rewrite (IH (fun z Hz => Hall z (or_intror Hz)) Hin Hx). reflexivity.
Qed.

(** ** The access key *)

Lemma replace_cte_no_c fuel new k : contains_char "C" k = false ->
  replace_aux fuel "CTe" new k = k.
Proof.
  revert k. induction fuel as [|f IH]; intros k Hk; [reflexivity|].
  destruct k as [|c k']; [reflexivity|].
  cbn [contains_char] in Hk. apply orb_false_iff in Hk as [Hc Hk'].
  cbn [replace_aux starts_with]. rewrite Hc. cbn [andb]. rewrite IH by exact Hk'.
  reflexivity.
Qed.

Lemma digits_no_c k : all_digits k = true -> contains_char "C" k = false.
Proof.
  induction k as [|c k IH]; [reflexivity|]. cbn [all_digits contains_char].
  intros H. apply andb_true_iff in H as [Hc Hk].
  rewrite (digit_neq c "C" Hc eq_refl), IH by exact Hk. reflexivity.
Qed.

Lemma py_replace_cte k : contains_char "C" k = false -> py_replace ("CTe" +++ k) "CTe" "" = k.
Proof.
  intros Hk. unfold py_replace.
  change (String.length ("CTe" +++ k)) with (S (S (S (String.length k)))).
  change (replace_aux (S (S (S (String.length k)))) "CTe" "" ("CTe" +++ k))
    with ("" +++ replace_aux (S (S (String.length k))) "CTe" ""
                 (substring 0 (S (S (S (String.length k)))) k)).
  rewrite substring_0_long by lia.
  apply replace_cte_no_c, Hk.
Qed.

Lemma extract_ident_key u nd i : extract_ident u nd = Ok i ->
  key_cte i = py_replace (match assoc_get "Id" (el_attrib (inf_cte nd)) with
                          | Some v => v | None => "" end) "CTe" "".
Proof. unfold extract_ident. intros H. inv_binds. reflexivity. Qed.

Lemma header_key_cell u v p : draw_header_section u v = Ok p ->
  In (Cell (format_key (key_cte (v_ident v)))) p.
Proof. unfold draw_header_section. intros H. inv_binds. simpl. tauto. Qed.

(** X8: The access key is the [Id] attribute of [infCte] with its ["CTe"]
    prefix removed, and a page that is produced shows it in groups of four
    ([format_key]). *)
Theorem key_cte_shown (u : utils) (cfg : config) (root : element) (v : view) (pg : page)
    (k : string) (H : dacteos u cfg root = Ok (v, pg))
    (Hid : assoc_get "Id" (el_attrib (inf_cte (v_nodes v))) = Some ("CTe" +++ k))
    (Hk : all_digits k = true) :
  key_cte (v_ident v) = k /\ In (Cell (format_key k)) pg.
Proof.
  apply dacteos_parts in H as [Hv Hr].
  destruct (extract_view_parts _ _ _ _ Hv) as (_ & Hi & _).
  assert (Hkey : key_cte (v_ident v) = k).
  { rewrite (extract_ident_key _ _ _ Hi), Hid. apply py_replace_cte, digits_no_c, Hk. }
  split; [exact Hkey|].
  destruct (render_phases _ _ _ Hr) as (p1 & p2 & p3 & p4 & p5 & p6 & p7 & p8 & p9 & _ & H2 & Hrest).
  destruct Hrest as (_ & _ & _ & _ & _ & _ & _ & ->).
  apply in_or_app. right. apply in_or_app. left.
  rewrite <- Hkey. apply (header_key_cell u), H2.
Qed.

Lemma key_cte_shown_witness :
  exists v pg, dacteos plain_utils plain_config (sample_doc "1") = Ok (v, pg)
               /\ key_cte (v_ident v) = sample_key /\ In (Cell (format_key sample_key)) pg.
Proof.
  destruct (dacteos plain_utils plain_config (sample_doc "1")) as [[v pg]|e] eqn:E;
    [|vm_compute in E; discriminate].
  exists v, pg. split; [reflexivity|].
  apply (key_cte_shown plain_utils plain_config (sample_doc "1") v pg sample_key E).
  - vm_compute in E. injection E as <- _. reflexivity.
  - reflexivity.
Defined.

(** ** Where construction aborts *)

Lemma substring_past n m s : (String.length s <= n)%nat -> substring n m s = "".
Proof.
  revert s. induction n as [|n IH]; intros s Hl.
  - destruct s; [destruct m; reflexivity | simpl in Hl; lia].
  - destruct s as [|c s]; [destruct m; reflexivity|]. simpl in Hl |- *. apply IH. lia.
Qed.

Lemma py_int_err s e : py_int s = Err e -> e = ValueError.
Proof.
  unfold py_int. intros H.
  match type of H with (match ?r with _ => _ end) = _ => destruct r end; congruence.
Qed.

Lemma document_row_cases c : (exists r, document_row c = Ok r) \/ document_row c = Err ValueError.
Proof.
  unfold document_row, formatted_nro_doc.
  destruct (py_int (py_slice c 25 34)) as [n|e] eqn:E; cbn [bind]; [left; eauto|].
  right. rewrite (py_int_err _ _ E). reflexivity.
Qed.

(** X9: A referenced key of at most 25 characters has an empty number slice
    [chave[25:34]], and [int("")] raises: the documents phase raises
    [ValueError] and no page is produced. *)
Theorem short_key_aborts (u : utils) (cfg : config) (root : element) (v : view) (c : string)
    (Hv : extract_view u cfg root = Ok v) (Hin : In c (inf_doc_list v))
    (Hl : (String.length c <= 25)%nat) :
  draw_documents_and_observations v = Err ValueError
  /\ is_err (dacteos u cfg root) = true.
Proof.
  assert (Hd : draw_documents_and_observations v = Err ValueError).
  { unfold draw_documents_and_observations.
    rewrite (mapM_err document_row (inf_doc_list v) c ValueError); [reflexivity| |exact Hin|].
    - intros y _. apply document_row_cases.
    - unfold document_row, formatted_nro_doc, py_slice.
      rewrite substring_past by exact Hl. reflexivity. }
  split; [exact Hd|].
  apply (dacteos_err_render _ _ _ _ Hv), render_err_documents. rewrite Hd. reflexivity.
Qed.

Lemma short_key_aborts_witness :
  exists v, extract_view plain_utils plain_config doc_short_key = Ok v
            /\ draw_documents_and_observations v = Err ValueError
            /\ is_err (dacteos plain_utils plain_config doc_short_key) = true.
Proof.
  destruct (extract_view plain_utils plain_config doc_short_key) as [v|e] eqn:E;
    [|vm_compute in E; discriminate].
  exists v. split; [reflexivity|].
  apply (short_key_aborts plain_utils plain_config doc_short_key v "3524" E).
  - vm_compute in E. injection E as <-. simpl. auto.
  - simpl. lia.
Defined.

Lemma text_strip_cases x : (exists t, text_strip x = Ok t) \/ text_strip x = Err AttributeError.
Proof. unfold text_strip. destruct (el_text x); cbn; eauto. Qed.

Lemma obs_item_cases (o : option element) :
  (exists l, match o with Some x => t <- text_strip x ;; Ok [t] | None => Ok [] end = Ok l)
  \/ match o with Some x => t <- text_strip x ;; Ok [t] | None => Ok [] end = Err AttributeError.
Proof.
  destruct o as [x|]; [|left; eauto].
  destruct (text_strip_cases x) as [[t Ht]|Ht]; rewrite Ht; cbn [bind]; eauto.
Qed.

(** X10: An [xObs] element, or the [xTexto] element of an [ObsCont], that is
    present with no text raises [AttributeError] on [None.strip()]: the
    observations cannot be collected and no page is produced. *)
Theorem obs_without_text_aborts (u : utils) (cfg : config) (root : element) (nd : nodes)
    (c x : element) (Hp : parse_nodes root = Ok nd) (Hc : compl nd = Some c)
    (Hx : find c (URL +++ "xObs") None = Ok (Some x)
          \/ exists ocs oc, findall c (URL +++ "ObsCont") None = Ok ocs /\ In oc ocs
                            /\ find oc (URL +++ "xTexto") None = Ok (Some x))
    (Ht : el_text x = None) :
  extract_obs (compl nd) = Err AttributeError /\ is_err (dacteos u cfg root) = true.
Proof.
  assert (Ho : extract_obs (compl nd) = Err AttributeError).
  { rewrite Hc. unfold extract_obs.
    destruct Hx as [Hx | (ocs & oc & Hocs & Hin & Hx)].
    - rewrite Hx. cbn [bind]. unfold text_strip. rewrite Ht. reflexivity.
    - rewrite (find_url c "xObs") by reflexivity. cbn [bind].
      destruct (obs_item_cases (hd_error (desc_tagged (ns_tag "xObs") c))) as [[l Hl]|Hl];
        rewrite Hl; cbn [bind]; [|reflexivity].
      rewrite Hocs. cbn [bind].
      rewrite (mapM_err _ _ oc AttributeError); [reflexivity| |exact Hin|].
      + intros y _. rewrite (find_url y "xTexto") by reflexivity. cbn [bind].
        apply obs_item_cases.
      + rewrite Hx. cbn [bind]. unfold text_strip. rewrite Ht. reflexivity. }
  split; [exact Ho|].
  apply dacteos_err_view, (extract_view_err_obs _ _ _ _ Hp). rewrite Ho. reflexivity.
Qed.

Lemma obs_without_text_aborts_witness :
  exists nd c, parse_nodes doc_obs_no_text = Ok nd /\ compl nd = Some c
    /\ extract_obs (compl nd) = Err AttributeError
    /\ is_err (dacteos plain_utils plain_config doc_obs_no_text) = true.
Proof.
  destruct (parse_nodes doc_obs_no_text) as [nd|e] eqn:E; [|vm_compute in E; discriminate].
  destruct (compl nd) as [c|] eqn:Ec; [|vm_compute in E; injection E as <-; discriminate].
  exists nd, c. split; [reflexivity|]. split; [exact Ec|].
  apply (obs_without_text_aborts plain_utils plain_config doc_obs_no_text nd c (node "xObs" []) E Ec).
  - left. vm_compute in E. injection E as <-. vm_compute in Ec. injection Ec as <-. reflexivity.
  - reflexivity.
Defined.

(** X11: A [rodoOS] without [veic] leaves the vehicle plate and state
    unassigned: the extraction goes through, but the modal phase raises
    [AttributeError] reading them, and no page is produced. *)
Theorem rodo_without_veic_aborts (u : utils) (cfg : config) (root : element) (v : view)
    (im r : element) (Hv : extract_view u cfg root = Ok v)
    (Him : inf_modal (v_nodes v) = Some im) (Hr : find im (URL +++ "rodoOS") None = Ok (Some r))
    (Hn : find r (URL +++ "veic") None = Ok None) :
  draw_modal_specific_data_rodo_os v = Err AttributeError
  /\ is_err (dacteos u cfg root) = true.
Proof.
  destruct (extract_view_parts _ _ _ _ Hv) as (_ & _ & _ & _ & _ & _ & _ & _ & Hm & _).
  rewrite Him in Hm. unfold extract_modal in Hm. cbn [on bind] in Hm. rewrite Hr in Hm.
  cbn [bind] in Hm. inv_binds. rewrite Hn in Ha0. injection Ha0 as <-.
  injection Hm as Hm.
  assert (Hd : draw_modal_specific_data_rodo_os v = Err AttributeError).
  { unfold draw_modal_specific_data_rodo_os. rewrite <- Hm. reflexivity. }
  split; [exact Hd|].
  apply (dacteos_err_render _ _ _ _ Hv), render_err_modal. rewrite Hd. reflexivity.
Qed.

Lemma rodo_without_veic_aborts_witness :
  exists v, extract_view plain_utils plain_config doc_no_veic = Ok v
            /\ draw_modal_specific_data_rodo_os v = Err AttributeError
            /\ is_err (dacteos plain_utils plain_config doc_no_veic) = true.
Proof.
  destruct (extract_view plain_utils plain_config doc_no_veic) as [v|e] eqn:E;
    [|vm_compute in E; discriminate].
  exists v. split; [reflexivity|].
  apply (rodo_without_veic_aborts plain_utils plain_config doc_no_veic v
           (node "infModal" [node "rodoOS" [leaf "NroRegEstadual" "99"]])
           (node "rodoOS" [leaf "NroRegEstadual" "99"]) E);
    vm_compute in E; injection E as <-; reflexivity.
Defined.

(** X12: An [infModal] without [rodoOS] gives an empty plate, state and state
    registration: the modal phase shows its three captions with nothing
    after them. *)
Theorem no_rodo_empty_modal (u : utils) (cfg : config) (root : element) (v : view)
    (im : element) (Hv : extract_view u cfg root = Ok v)
    (Him : inf_modal (v_nodes v) = Some im) (Hr : find im (URL +++ "rodoOS") None = Ok None) :
  draw_modal_specific_data_rodo_os v
  = Ok [Cell "PLACA DO VEÍCULO: "; Cell "UF: "; Cell "N DE REGISTRO ESTADUAL: "].
Proof.
  destruct (extract_view_parts _ _ _ _ Hv) as (_ & _ & _ & _ & _ & _ & _ & _ & Hm & _).
  rewrite Him in Hm. unfold extract_modal in Hm. cbn [on bind] in Hm. rewrite Hr in Hm.
  cbn [bind] in Hm. injection Hm as Hm.
  unfold draw_modal_specific_data_rodo_os. rewrite <- Hm. cbn [on bind placa_veiculo
    uf_veiculo nro_reg_estadual]. rewrite !append_empty_r. reflexivity.
Qed.

Lemma no_rodo_empty_modal_witness :
  exists v, extract_view plain_utils plain_config doc_no_rodo = Ok v
    /\ draw_modal_specific_data_rodo_os v
       = Ok [Cell "PLACA DO VEÍCULO: "; Cell "UF: "; Cell "N DE REGISTRO ESTADUAL: "].
Proof.
  destruct (extract_view plain_utils plain_config doc_no_rodo) as [v|e] eqn:E;
    [|vm_compute in E; discriminate].
  exists v. split; [reflexivity|].
  apply (no_rodo_empty_modal plain_utils plain_config doc_no_rodo v (node "infModal" []) E);
    vm_compute in E; injection E as <-; reflexivity.
Defined.

(** X13: The constructor reads [CTeOS], [CTeOS/infCte], [infCte/infCTeNorm] and
    [protCTe] with no [None] check: when one of them is missing it raises
    [AttributeError], whatever the rest of the document. *)
Theorem missing_structure_raises (u : utils) (cfg : config) (root : element)
    (Hm : ~ exists c ic icn p,
            find root (URL +++ "CTeOS") None = Ok (Some c)
            /\ find c (URL +++ "infCte") None = Ok (Some ic)
            /\ find ic (URL +++ "infCTeNorm") None = Ok (Some icn)
            /\ find root (URL +++ "protCTe") None = Ok (Some p)) :
  dacteos u cfg root = Err AttributeError.
Proof.
  unfold dacteos, extract_view, parse_nodes.
  rewrite (find_url root "CTeOS"), (find_url root "protCTe") by reflexivity. cbn [bind].
  destruct (hd_error (desc_tagged (ns_tag "CTeOS") root)) as [c|] eqn:E1;
    cbn [on bind]; [|reflexivity].
  rewrite (find_url c "infCte") by reflexivity. cbn [bind].
  destruct (hd_error (desc_tagged (ns_tag "infCte") c)) as [ic|] eqn:E2;
    cbn [on bind]; [|reflexivity].
  rewrite (find_url ic "ide"), (find_url ic "emit"), (find_url ic "toma"),
    (find_url ic "vPrest"), (find_url ic "imp"), (find_url ic "infCTeNorm") by reflexivity.
  cbn [bind].
  destruct (hd_error (desc_tagged (ns_tag "infCTeNorm") ic)) as [icn|] eqn:E3;
    cbn [on bind]; [|reflexivity].
  rewrite (find_url icn "infCarga"), (find_url icn "infDoc"), (find_url icn "infModal"),
    (find_url ic "compl"), (find_url ic "infCTeSupl") by reflexivity.
  cbn [bind].
  destruct (hd_error (desc_tagged (ns_tag "protCTe") root)) as [p|] eqn:E4;
    cbn [on bind]; [|reflexivity].
  exfalso. apply Hm. exists c, ic, icn, p.
  rewrite (find_url root "CTeOS"), (find_url c "infCte"), (find_url ic "infCTeNorm"),
    (find_url root "protCTe") by reflexivity.
  rewrite E1, E2, E3, E4. auto.
Qed.

Lemma missing_structure_raises_witness :
  dacteos plain_utils plain_config doc_no_prot = Err AttributeError.
Proof.
  apply missing_structure_raises.
  intros (c & ic & icn & p & _ & _ & _ & Hp). vm_compute in Hp. discriminate.
Defined.

(** X14: The constructor reads [toma] and the header reads [emit] with no
    [None] check ([self.toma_node.find(...)], [self.emit.find(...)]): a
    document without either never produces a page. *)
Theorem missing_party_aborts (u : utils) (cfg : config) (root : element) (nd : nodes)
    (Hp : parse_nodes root = Ok nd) (Hm : toma_node nd = None \/ emit nd = None) :
  is_err (dacteos u cfg root) = true.
Proof.
  destruct (extract_view u cfg root) as [v|e] eqn:Ev; [|apply dacteos_err_view; rewrite Ev; reflexivity].
  destruct (extract_view_parts _ _ _ _ Ev) as (Hp' & _ & Ht & _).
  rewrite Hp in Hp'. injection Hp' as Hnd. subst nd.
  destruct Hm as [Hm|Hm].
  - exfalso. unfold extract_tomador in Ht. rewrite Hm in Ht.
    cbn [find_text find_text_ns bind] in Ht.
    destruct (format_cpf_cnpj u ""); cbn [bind] in Ht; [|discriminate].
    cbn [find_text find_text_ns bind on] in Ht. discriminate.
  - apply (dacteos_err_render _ _ _ _ Ev), render_err_header.
    unfold draw_header_section. rewrite Hm. reflexivity.
Qed.

Lemma missing_party_aborts_witness :
  exists nd, parse_nodes doc_no_toma = Ok nd
    /\ is_err (dacteos plain_utils plain_config doc_no_toma) = true.
Proof.
  destruct (parse_nodes doc_no_toma) as [nd|e] eqn:E; [|vm_compute in E; discriminate].
  exists nd. split; [reflexivity|].
  apply (missing_party_aborts plain_utils plain_config doc_no_toma nd E).
  left. vm_compute in E. injection E as <-. reflexivity.
Defined.

(** ** Lists built by the extraction loops *)

Lemma mapM_Forall2 {A B} (f : A -> result B) (l : list A) (l' : list B) :
  mapM f l = Ok l' -> Forall2 (fun x y => f x = Ok y) l l'.
Proof.
  revert l'. induction l as [|x l IH]; cbn [mapM]; intros l' H.
  - injection H as <-. constructor.
  - inv_binds. constructor; [assumption | apply IH; assumption].
Qed.

(** X15: The value components are the [Comp] elements inside [vPrest] (at any
    depth, as [.//] finds them), one each and in document order, with the name read from [xNome] and the value
    [vComp] passed through [format_number] at the price precision. *)
Theorem comp_list_in_order (u : utils) (cfg : config) (nd : nodes) (vl : values)
    (vp : element) (H : extract_values u cfg nd = Ok vl) (Hvp : v_prest nd = Some vp) :
  exists comps, findall vp (URL +++ "Comp") None = Ok comps
  /\ Forall2 (fun comp nv =>
             find_text (Some comp) "xNome" = Ok (fst nv)
             /\ exists s, find_text (Some comp) "vComp" = Ok s
                          /\ format_number u s (price_precision cfg) = Ok (snd nv))
          comps (comp_list vl).
Proof.
  exists (desc_tagged (ns_tag "Comp") vp). split; [apply findall_url; reflexivity|].
  unfold extract_values in H. rewrite Hvp in H.
  rewrite (findall_url vp "Comp") in H by reflexivity. inv_binds. cbn [comp_list].
  match goal with Hm : mapM _ _ = Ok _ |- _ => apply mapM_Forall2 in Hm;
    eapply Forall2_impl; [|exact Hm] end.
  intros comp nv Hc. cbv beta in Hc. inv_binds.
  cbn [fst snd]. split; [assumption|]. eexists. split; eassumption.
Qed.

Lemma comp_list_in_order_witness :
  exists nd vl, parse_nodes (sample_doc "1") = Ok nd
    /\ extract_values plain_utils plain_config nd = Ok vl
    /\ exists comps,
         findall (node "vPrest" [leaf "vTPrest" "100.00"; leaf "vRec" "100.00";
                                 node "Comp" [leaf "xNome" "FRETE"; leaf "vComp" "100.00"]])
                 (URL +++ "Comp") None = Ok comps
         /\ Forall2 (fun comp nv =>
             find_text (Some comp) "xNome" = Ok (fst nv)
             /\ exists s, find_text (Some comp) "vComp" = Ok s
                          /\ format_number plain_utils s (price_precision plain_config) = Ok (snd nv))
          comps (comp_list vl).
Proof.
  destruct (parse_nodes (sample_doc "1")) as [nd|e] eqn:E; [|vm_compute in E; discriminate].
  destruct (extract_values plain_utils plain_config nd) as [vl|e] eqn:Ev;
    [|vm_compute in E; injection E as <-; vm_compute in Ev; discriminate].
  exists nd, vl. split; [reflexivity|]. split; [exact Ev|].
  apply (comp_list_in_order plain_utils plain_config nd vl _ Ev).
  vm_compute in E. injection E as <-. reflexivity.
Defined.

Lemma flat_map_two_length {A} (f : A -> page) (l : list A) :
  (forall x, List.length (f x) = 2%nat) -> List.length (flat_map f l) = (2 * List.length l)%nat.
Proof.
  intros Hf. induction l as [|x l IH]; [reflexivity|].
  cbn [flat_map List.length]. rewrite List.length_app, Hf, IH. lia.
Qed.

(** X16: The service phase draws ten cells plus two for each of the first six
    value components at most: a seventh component and the ones after it
    are never shown. *)
Theorem service_shows_six_components (u : utils) (v : view) (pg : page)
    (H : draw_service_info_and_values u v = Ok pg) :
  List.length pg = (10 + 2 * Nat.min 6 (List.length (comp_list (v_values v))))%nat.
Proof.
  unfold draw_service_info_and_values in H.
  set (fs := firstn 6 (comp_list (v_values v))) in H.
  assert (Hfs : List.length fs = Nat.min 6 (List.length (comp_list (v_values v))))
    by apply length_firstn.
  clearbody fs. cbv zeta in H. inv_binds.
  cbn [List.length]. rewrite !List.length_app. cbn [List.length].
  rewrite flat_map_two_length by (intros [? ?]; reflexivity). lia.
Qed.

Lemma service_shows_six_components_witness :
  exists v pg, dacteos plain_utils plain_config (sample_doc "1") = Ok (v, pg)
    /\ exists p, draw_service_info_and_values plain_utils v = Ok p
    /\ List.length p = (10 + 2 * Nat.min 6 (List.length (comp_list (v_values v))))%nat.
Proof.
  destruct (dacteos plain_utils plain_config (sample_doc "1")) as [[v pg]|e] eqn:E;
    [|vm_compute in E; discriminate].
  exists v, pg. split; [reflexivity|].
  destruct (draw_service_info_and_values plain_utils v) as [p|e] eqn:Ep;
    [|vm_compute in E; injection E as <- _; vm_compute in Ep; discriminate].
  exists p. split; [reflexivity|]. exact (service_shows_six_components plain_utils v p Ep).
Defined.

Lemma collect_chaves_clean l cs : collect_chaves l = Ok cs ->
  Forall (fun c => c <> "" /\ strip c = c) cs.
Proof.
  revert cs. induction l as [|n l IH]; cbn [collect_chaves]; intros cs H.
  - injection H as <-. constructor.
  - inv_binds. destruct (String.eqb_spec a ""); [apply IH; assumption|].
    constructor; [|apply IH; assumption].
    split; [assumption|]. exact (find_text_ns_strip_fixed _ _ _ _ Ha).
Qed.

(** X17: Every referenced key collected from [infDoc] is non-empty and has no
    surrounding whitespace. *)
Theorem inf_doc_keys_clean (d : option element) (l : list string)
    (H : extract_inf_doc d = Ok l) :
  Forall (fun c => c <> "" /\ strip c = c) l.
Proof.
  destruct d as [d|]; cbn [extract_inf_doc] in H; [|injection H as <-; constructor].
  inv_binds. apply Forall_app. split; eapply collect_chaves_clean; eassumption.
Qed.

Lemma inf_doc_keys_clean_witness :
  extract_inf_doc (Some (node "infDoc" [node "infNFe" [leaf "chave" (" " +++ sample_nfe +++ " ")];
                                        node "infCTe" [leaf "chave" "  "]]))
  = Ok [sample_nfe]
  /\ Forall (fun c => c <> "" /\ strip c = c) [sample_nfe].
Proof.
  split; [reflexivity|].
  apply (inf_doc_keys_clean (Some (node "infDoc" [node "infNFe" [leaf "chave" (" " +++ sample_nfe +++ " ")];
                                                  node "infCTe" [leaf "chave" "  "]]))).
  reflexivity.
Defined.

(** ** The tax block *)

(** X18: When [ICMS/ICMSOutraUF] is present it is used, whatever [ICMS00] holds:
    the CST is its [CST], the rate is [pFCPUFFim] when that is non-empty and
    [pICMSOutraUF] otherwise (Python's [or]), and the base reduction and
    ST value are the fixed ["0.00"]. *)
Theorem outra_uf_precedence (u : utils) (cfg : config) (i o : element) (t : tax)
    (Ho : find i (URL +++ "ICMS/" +++ URL +++ "ICMSOutraUF") None = Ok (Some o))
    (H : extract_tax u cfg (Some i) = Ok t) :
  find_text (Some o) "CST" = Ok (icms_cst t)
  /\ (exists a2 s2, find_text (Some o) "pFCPUFFim" = Ok a2
        /\ (a2 <> "" -> s2 = a2) /\ (a2 = "" -> find_text (Some o) "pICMSOutraUF" = Ok s2)
        /\ format_number u s2 (price_precision cfg) = Ok (icms_p_icms t))
  /\ icms_pred_bc t = "0.00" /\ icms_st t = "0.00"
  /\ cst_desc t = dict_get (TP_ICMS u) (icms_cst t) "Outros".
Proof.
  unfold extract_tax in H. cbn [on bind] in H. rewrite Ho in H. cbn [bind] in H. inv_binds.
  cbn [icms_cst icms_p_icms icms_pred_bc icms_st cst_desc].
  split; [exact Ha0|]. split; [|repeat split].
  exists a3, a4. split; [exact Ha3|].
  revert Ha4. destruct (String.eqb_spec a3 "") as [E|E]; intros Ha4.
  - split; [intros; contradiction|]. split; [intros _; exact Ha4|exact Ha5].
  - injection Ha4 as <-. split; [reflexivity|]. split; [intros; contradiction|exact Ha5].
Qed.

Lemma outra_uf_precedence_witness :
  exists t, extract_tax plain_utils plain_config
              (Some (node "imp" [node "ICMS" [node "ICMSOutraUF" [leaf "CST" "90"; leaf "vBCOutraUF" "100.00";
                                                                 leaf "pICMSOutraUF" "12.00"; leaf "vICMSOutraUF" "12.00"];
                                               node "ICMS00" [leaf "CST" "00"; leaf "pRedBC" "10.00"]]]))
            = Ok t
    /\ icms_cst t = "90" /\ icms_pred_bc t = "0.00".
Proof.
  eexists. split; [reflexivity|].
  destruct (outra_uf_precedence plain_utils plain_config
              (node "imp" [node "ICMS" [node "ICMSOutraUF" [leaf "CST" "90"; leaf "vBCOutraUF" "100.00";
                                                           leaf "pICMSOutraUF" "12.00"; leaf "vICMSOutraUF" "12.00"];
                                         node "ICMS00" [leaf "CST" "00"; leaf "pRedBC" "10.00"]]])
              (node "ICMSOutraUF" [leaf "CST" "90"; leaf "vBCOutraUF" "100.00";
                                   leaf "pICMSOutraUF" "12.00"; leaf "vICMSOutraUF" "12.00"])
              _ eq_refl eq_refl) as (Hc & _ & Hp & _).
  split; [reflexivity | exact Hp].
Defined.

Lemma default_layout_below_page_witness :
  Forall (fun y => a4_height < y) (skipn 3 (phase_starts default_layout (10 # 1)))
  /\ a4_height < footer_bottom default_layout (10 # 1).
Proof. apply default_layout_below_page. unfold Qle. simpl. lia. Defined.
